(** * The demo HTTP services of semantic_kernel_swagger_demo

    A shallow embedding of the two FastAPI services

    - [sample_apis/shop_api_main.py]  (the fake store: listing and purchase),
    - [sample_apis/fake_api_main.py]  (the generic items API),

    together with the fragment of Python they run on: arbitrary precision
    [int], binary64 [float], the mixed arithmetic between the two, truthiness,
    f-string rendering of integers and exceptions.

    Python's [float] is IEEE 754 binary64 with round-to-nearest-even.  It is
    modelled by [spec_float] at precision 53 and maximal exponent 1024, whose
    operations compute inside Rocq. *)

From Stdlib Require Import ZArith List String Bool Lia.
From Stdlib Require Import DecimalString DecimalZ SpecFloat.
Import ListNotations.

Local Open Scope string_scope.
Local Open Scope Z_scope.

(* ================================================================== *)
(** * The Python fragment                                              *)
(* ================================================================== *)

Module Py.

(** binary64 *)
Definition prec : Z := 53.
Definition emax : Z := 1024.

Definition float : Type := spec_float.

Definition fadd : float -> float -> float := SFadd prec emax.
Definition fmul : float -> float -> float := SFmul prec emax.
Definition fdiv : float -> float -> float := SFdiv prec emax.

(** What [==] answers on two floats: false on NaN, true on [0.0 == -0.0]. *)
Definition feq : float -> float -> bool := SFeqb.

(** A float is a well-formed binary64 datum: canonical mantissa and
    exponent in range. *)
Definition valid (f : float) : bool := valid_binary prec emax f.

(** The exceptions the two services can meet. *)
Inductive exn : Type :=
| OverflowError (msg : string)
| ValueError (msg : string)
| HTTPException (status_code : Z) (detail : string).

(** A Python expression either returns a value or raises. *)
Inductive outcome (A : Type) : Type :=
| Return (a : A)
| Raise (e : exn).
Arguments Return {A} a.
Arguments Raise {A} e.

Definition bind {A B} (c : outcome A) (k : A -> outcome B) : outcome B :=
  match c with
  | Return a => k a
  | Raise e => Raise e
  end.

(** The nearest binary64 to an integer, ties to even; an infinity when the
    integer is beyond the range. *)
Definition float_of_Z (z : Z) : float := binary_normalize prec emax z 0 false.

(** [PyLong_AsDouble]: the conversion every mixed [float]/[int] operator
    applies to its [int] operand.  It raises instead of returning an
    infinity. *)
Definition PyLong_AsDouble (z : Z) : outcome float :=
  match float_of_Z z with
  | S754_infinity _ => Raise (OverflowError "int too large to convert to float")
  | f => Return f
  end.

(** A decimal literal [n/d] (as in [9.99 = 999/100]) denotes the binary64
    nearest to it.  Both integers are exactly representable here, so the
    correctly rounded quotient is that float. *)
Definition literal (n d : Z) : float := fdiv (float_of_Z n) (float_of_Z d).

(** [nearest n d f]: [f] is finite, well formed, and lies strictly within
    half a unit in the last place of the rational [n/d]. *)
Definition nearest (n d : Z) (f : float) : bool :=
  match f with
  | S754_finite s m e =>
      valid f && (e <=? 0) && (0 <? d)
      && (2 * Z.abs (d * (if s then Z.neg m else Z.pos m) - n * 2 ^ (- e)) <? d)
  | _ => false
  end.

(** Numbers: the values of the arithmetic of line 167. *)
Inductive num : Type :=
| Int (z : Z)
| Float (f : float).

Definition as_double (n : num) : outcome float :=
  match n with
  | Int z => PyLong_AsDouble z
  | Float f => Return f
  end.

(** [a * b]: exact on two ints, binary64 as soon as one side is a float. *)
Definition mul (a b : num) : outcome num :=
  match a, b with
  | Int x, Int y => Return (Int (x * y))
  | _, _ =>
      bind (as_double a) (fun x =>
      bind (as_double b) (fun y =>
      Return (Float (fmul x y))))
  end.

(** [a + b] *)
Definition add (a b : num) : outcome num :=
  match a, b with
  | Int x, Int y => Return (Int (x + y))
  | _, _ =>
      bind (as_double a) (fun x =>
      bind (as_double b) (fun y =>
      Return (Float (fadd x y))))
  end.

(** Truthiness of a float: everything but the two zeros (NaN is true). *)
Definition truthy (f : float) : bool :=
  match f with
  | S754_zero _ => false
  | _ => true
  end.

(** [x or 0] for [x : Optional[float]]: [None] and the zeros give the
    int [0]. *)
Definition or_0 (x : option float) : num :=
  match x with
  | Some f => if truthy f then Float f else Int 0
  | None => Int 0
  end.

(** [sys.get_int_max_str_digits()], as the interpreter starts. *)
Definition int_max_str_digits : Z := 4300.

(** The decimal digits of an int, a leading minus sign for negatives. *)
Definition decimal (z : Z) : string := NilZero.string_of_int (Z.to_int z).

(** [str(z)], the rendering an f-string gives an int.  An int of more
    than 4300 digits, that is of magnitude 10^4300 or more, is not
    rendered: the conversion raises [ValueError]. *)
Definition str (z : Z) : outcome string :=
  if 10 ^ int_max_str_digits <=? Z.abs z then
    Raise (ValueError "Exceeds the limit (4300 digits) for integer string conversion; use sys.set_int_max_str_digits() to increase the limit")
  else Return (decimal z).

(** [next((x for x in l if p(x)), None)] *)
Definition next_or_None {A} (p : A -> bool) (l : list A) : option A :=
  find p l.

(** [math.isfinite]: neither an infinity nor NaN. *)
Definition isfinite (f : float) : bool :=
  match f with
  | S754_zero _ | S754_finite _ _ _ => true
  | _ => false
  end.

(** [exactly z f]: the finite float [f] is the integer [z], no rounding. *)
Definition exactly (z : Z) (f : float) : bool :=
  match f with
  | S754_finite s m e =>
      valid f && (e <=? 0)
      && ((if s then Z.neg m else Z.pos m) =? z * 2 ^ (- e))
  | S754_zero _ => z =? 0
  | _ => false
  end.

End Py.

Import Py.

(* ================================================================== *)
(** * sample_apis/shop_api_main.py                                     *)
(* ================================================================== *)

Module Shop.

(** class StoreItem(BaseModel) *)
Record StoreItem : Type := {
  id : Z;
  name : string;
  description : option string;
  price : float;
  tax : option float
}.

(** class PurchaseOrder(BaseModel) *)
Record PurchaseOrder : Type := {
  product_id : Z;
  buyer_name : string;
  quantity : Z
}.

(** [PurchaseOrder(product_id=.., buyer_name=.., quantity=..)], the last
    keyword being optional: [Field(1, ...)] makes 1 the default. *)
Definition PurchaseOrder_init
    (product_id : Z) (buyer_name : string) (quantity : option Z)
  : PurchaseOrder :=
  {| product_id := product_id;
     buyer_name := buyer_name;
     quantity := match quantity with Some q => q | None => 1 end |}.

(** The dict [purchase_item] returns. *)
Module OrderConfirmation.
Record t : Type := {
  message : string;
  product : StoreItem;
  quantity : Z;
  total_price : num
}.
End OrderConfirmation.

(** The module-level list [store_inventory], as seeded at import time. *)
Definition store_inventory : list StoreItem :=
  [ {| id := 1;
       name := "Surface Laptop";
       description := Some "A sleek Microsoft laptop with an elegant design and robust performance.";
       price := literal 99999 100;
       tax := Some (literal 9999 100) |};
    {| id := 2;
       name := "Wireless Mouse";
       description := Some "An ergonomic wireless mouse with long battery life.";
       price := literal 4999 100;
       tax := Some (literal 499 100) |};
    {| id := 3;
       name := "Pizza";
       description := Some "A tasteful argentinian style pizza.";
       price := literal 999 100;
       tax := Some (literal 199 100) |};
    {| id := 4;
       name := "Frico";
       description := Some "Delicacy from Udine.";
       price := literal 999 100;
       tax := Some (literal 199 100) |} ].

(** An endpoint runs against the global [store_inventory]: it receives the
    current list and hands back the list it leaves behind, next to what it
    returned or raised. *)
Definition handler (A : Type) : Type :=
  list StoreItem -> outcome A * list StoreItem.

Definition ret {A} (a : A) : handler A := fun inv => (Return a, inv).

Definition raise {A} (e : exn) : handler A := fun inv => (Raise e, inv).

Definition lift {A} (c : outcome A) : handler A := fun inv => (c, inv).

Definition read_store_inventory : handler (list StoreItem) :=
  fun inv => (Return inv, inv).

Definition hbind {A B} (c : handler A) (k : A -> handler B) : handler B :=
  fun inv =>
    match c inv with
    | (Return a, inv') => k a inv'
    | (Raise e, inv') => (Raise e, inv')
    end.

Notation "x <- c ;; k" := (hbind c (fun x => k))
  (at level 61, c at next level, right associativity).

(** async def list_store_items() *)
Definition list_store_items : handler (list StoreItem) :=
  read_store_inventory.

(** Line 167:
    [(product.price * order.quantity) + ((product.tax or 0) * order.quantity)] *)
Definition total_price_of (product : StoreItem) (order : PurchaseOrder)
  : outcome num :=
  bind (mul (Float (price product)) (Int (quantity order))) (fun net =>
  bind (mul (or_0 (tax product)) (Int (quantity order))) (fun taxes =>
  add net taxes)).

(** async def purchase_item(order: PurchaseOrder) *)
Definition purchase_item (order : PurchaseOrder)
  : handler OrderConfirmation.t :=
  inventory <- read_store_inventory ;;
  match next_or_None (fun item => id item =? product_id order) inventory with
  | None =>
      rendered <- lift (str (product_id order)) ;;
      raise (HTTPException 404
               ("Product with ID " ++ rendered ++ " not found."))
  | Some product =>
      total_price <- lift (total_price_of product order) ;;
      ret {| OrderConfirmation.message :=
               "Thank you " ++ buyer_name order ++ " for your purchase!";
             OrderConfirmation.product := product;
             OrderConfirmation.quantity := quantity order;
             OrderConfirmation.total_price := total_price |}
  end.

(** The formula as the specification words it:
    [(P.price + (P.tax or 0)) * O.quantity], in the same arithmetic. *)
Definition total_price_as_specified (P : StoreItem) (quantity : Z)
  : outcome num :=
  bind (add (Float (price P)) (or_0 (tax P))) (fun unit_price =>
  mul unit_price (Int quantity)).

End Shop.

(* ================================================================== *)
(** * sample_apis/fake_api_main.py                                     *)
(* ================================================================== *)

Module Items.

(** class Item(BaseModel) *)
Record Item : Type := {
  name : string;
  description : option string;
  price : float;
  tax : option float
}.

(** async def create_item(item: Item) *)
Definition create_item (item : Item) : outcome Item := Return item.

(** async def list_items() *)
Definition list_items : outcome (list Item) :=
  Return
    [ {| name := "Surface Laptop";
         description := Some "A sleek Microsoft laptop with an elegant design and robust performance.";
         price := literal 99999 100;
         tax := Some (literal 9999 100) |} ].

(** async def read_item(item_id: int).  The ints [100] and [10] go into
    [float] fields, which store them as [100.0] and [10.0]. *)
Definition read_item (item_id : Z) : outcome Item :=
  Return {| name := "Sample";
            price := float_of_Z 100;
            description := Some "Example item";
            tax := Some (float_of_Z 10) |}.

End Items.

(* ================================================================== *)
(** * The OpenAPI schema cache (custom_openapi, in both services)      *)
(* ================================================================== *)

Module OpenAPI.

(** The values a schema holds. *)
#[local] Unset Elimination Schemes.
Inductive value : Type :=
| VNone
| VBool (b : bool)
| VNum (n : num)
| VStr (s : string)
| VList (l : list value)
| VDict (d : list (string * value)).
#[local] Set Elimination Schemes.

(** A [dict] with string keys, in insertion order. *)
Definition dict : Type := list (string * value).

(** [d[k] = v]: a key already there keeps its place and takes the new
    value, a new key goes last. *)
Fixpoint setitem (d : dict) (k : string) (v : value) : dict :=
  match d with
  | [] => [(k, v)]
  | (k', v') :: rest =>
      if String.eqb k' k then (k', v) :: rest
      else (k', v') :: setitem rest k v
  end.

(** [d.get(k)] *)
Fixpoint get (d : dict) (k : string) : option value :=
  match d with
  | [] => None
  | (k', v') :: rest => if String.eqb k' k then Some v' else get rest k
  end.

(** Truthiness of an [Optional[dict]]: [None] and [{}] are false. *)
Definition truthy (schema : option dict) : bool :=
  match schema with
  | Some (_ :: _) => true
  | _ => false
  end.

(** What [custom_openapi] uses of the [FastAPI] application object; the
    routes are the framework's. *)
Record FastAPI (Routes : Type) : Type := {
  title : string;
  version : string;
  description : string;
  routes : Routes;
  openapi_schema : option dict
}.
Arguments title {Routes} _.
Arguments version {Routes} _.
Arguments description {Routes} _.
Arguments routes {Routes} _.
Arguments openapi_schema {Routes} _.

(** [app.openapi_schema = schema] *)
Definition set_openapi_schema {Routes}
    (app : FastAPI Routes) (schema : option dict) : FastAPI Routes :=
  {| title := title app;
     version := version app;
     description := description app;
     routes := routes app;
     openapi_schema := schema |}.

(** The literal of lines 193-195. *)
Definition servers : value :=
  VList [ VDict [ ("url", VStr "http://127.0.0.1:8000");
                  ("description", VStr "Local development server") ] ].

(** def custom_openapi(), run on the global [app]; [get_openapi] is the
    framework's generator, called with [title=], [version=],
    [description=] and [routes=]. *)
Definition custom_openapi {Routes}
    (get_openapi : string -> string -> string -> Routes -> outcome dict)
    (app : FastAPI Routes) : outcome (option dict) * FastAPI Routes :=
  if truthy (openapi_schema app) then (Return (openapi_schema app), app)
  else
    match get_openapi (title app) (version app) (description app)
                      (routes app) with
    | Raise e => (Raise e, app)
    | Return openapi_schema' =>
        let openapi_schema' := setitem openapi_schema' "servers" servers in
        let app := set_openapi_schema app (Some openapi_schema') in
        (Return (openapi_schema app), app)
    end.

End OpenAPI.

(* ================================================================== *)
(** * semantic_kernel_sample: the scripts                              *)
(* ================================================================== *)

Module Agent.

(** What a script writes: [input(prompt)] shows its prompt, [print] a
    line. *)
Inductive output : Type :=
| Prompt (s : string)
| Print (s : string).

(** [s * n] on a string *)
Definition str_mul (s : string) (n : Z) : string :=
  Nat.iter (Z.to_nat n) (String.append s) "".

(** ** sk_shop_api_agent.py: the interactive loop of [main] *)

(** How the loop stops: [break], [input] at the end of the input, or an
    exception of the chat service. *)
Inductive ending (Error : Type) : Type :=
| Break
| EOFError
| ServiceError (e : Error).
Arguments Break {Error}.
Arguments EOFError {Error}.
Arguments ServiceError {Error} e.

Record run (History Error : Type) : Type := {
  stop : ending Error;
  history : History;
  stdout : list output;
  unread : list string
}.
Arguments stop {History Error} _.
Arguments history {History Error} _.
Arguments stdout {History Error} _.
Arguments unread {History Error} _.

Section ChatLoop.
Context {History Content Error : Type}.

(** The library: [str.lower], the two [ChatHistory] methods the loop
    calls, the chat service (which may itself extend the history it is
    given, or raise) and [str] on its answer. *)
Variable lower : string -> string.
Variable add_user_message : string -> History -> History.
Variable add_assistant_message : string -> History -> History.
Variable get_chat_message_content : History -> (Error + Content) * History.
Variable str_content : Content -> string.

(** [user_input.lower() in ["exit", "quit"]] *)
Definition is_exit (user_input : string) : bool :=
  existsb (String.eqb (lower user_input)) ["exit"; "quit"].

(** Lines 58-80, [while True: ...], on the lines standard input still
    holds. *)
Fixpoint chat_loop (stdin : list string) (chat : History)
  : run History Error :=
  match stdin with
  | [] =>
      {| stop := EOFError; history := chat;
         stdout := [Prompt "User > "]; unread := [] |}
  | user_input :: stdin' =>
      if is_exit user_input then
        {| stop := Break; history := chat;
           stdout := [Prompt "User > "; Print "Exiting chat..."];
           unread := stdin' |}
      else
        let chat := add_user_message user_input chat in
        match get_chat_message_content chat with
        | (inl e, chat) =>
            {| stop := ServiceError e; history := chat;
               stdout := [Prompt "User > "]; unread := stdin' |}
        | (inr result, chat) =>
            let line := Print ("Assistant > " ++ str_content result) in
            let chat := add_assistant_message (str_content result) chat in
            let rest := chat_loop stdin' chat in
            {| stop := stop rest; history := history rest;
               stdout := Prompt "User > " :: line :: stdout rest;
               unread := unread rest |}
        end
  end.

(** [answered lines chat answers chat']: the chat service, asked about
    each of the lines in turn, gave the answers: every line is added to the
    history as a user message before its call, every answer as an
    assistant message after it, and [chat'] is the history at the end. *)
Inductive answered : list string -> History -> list Content -> History -> Prop :=
| answered_nil (chat : History) : answered [] chat [] chat
| answered_cons (line : string) (lines : list string) (chat chat1 chat' : History)
    (answer : Content) (answers : list Content) :
    get_chat_message_content (add_user_message line chat)
      = (inr answer, chat1) ->
    answered lines (add_assistant_message (str_content answer) chat1)
             answers chat' ->
    answered (line :: lines) chat (answer :: answers) chat'.

(** What the loop shows for the answers: a prompt, then the answer. *)
Definition shown (answers : list Content) : list output :=
  flat_map (fun answer =>
              [Prompt "User > ";
               Print ("Assistant > " ++ str_content answer)])
           answers.

End ChatLoop.

(** ** The plugin listings: sk_openapi_plugin_function_reader.py and
       fake_openapi_plugin_sample.py *)

(** What the two [main]s do once the plugin is loaded: they print, and
    they call [kernel.invoke] on a function of the plugin. *)
Inductive event : Type :=
| Printed (s : string)
| Invoked (function_name : string)
          (arguments : list (string * OpenAPI.value)).

(** How a script ends other than by returning. *)
Inductive exit : Type :=
| SystemExit
| Raised.

(** A script: the events so far and either a value or the way it ended. *)
Definition script (A : Type) : Type := list event * (exit + A).

Definition pure {A} (a : A) : script A := ([], inr a).

Definition emit (e : event) : script unit := ([e], inr tt).

(** [sys.exit()] *)
Definition sys_exit {A} : script A := ([], inl SystemExit).

Definition seq {A B} (c : script A) (k : A -> script B) : script B :=
  match c with
  | (events, inr a) => let (events', b) := k a in ((events ++ events')%list, b)
  | (events, inl e) => (events, inl e)
  end.

Section PluginScripts.
Context {Function : Type}.

(** The library: [str] on a kernel function, and
    [kernel.invoke(openapi_plugin[name], arguments=..)], which gives the
    text of its result or raises. *)
Variable str_function : Function -> string.
Variable invoke : string -> list (string * OpenAPI.value) -> option string.

(** [for function in openapi_plugin.functions:
       print(f"Function: {function}"); print("-" * 40)] *)
Fixpoint print_functions (functions : list Function) : script unit :=
  match functions with
  | [] => pure tt
  | function :: functions' =>
      seq (emit (Printed ("Function: " ++ str_function function))) (fun _ =>
      seq (emit (Printed (str_mul "-" 40))) (fun _ =>
      print_functions functions'))
  end.

(** The dict of lines 29 (sample) and 26 (executor). *)
Definition arguments : list (string * OpenAPI.value) :=
  [ ("name", OpenAPI.VStr "Laptop");
    ("description", OpenAPI.VStr "High-end device");
    ("price", OpenAPI.VNum (Float (literal 1500 1)));
    ("tax", OpenAPI.VNum (Float (literal 150 1))) ].

(** [result = await kernel.invoke(openapi_plugin["create_item_items__post"],
                                  arguments=kernel_arguments)
     print(result)] *)
Definition post_item : script unit :=
  seq (emit (Invoked "create_item_items__post" arguments)) (fun _ =>
  match invoke "create_item_items__post" arguments with
  | Some result => emit (Printed result)
  | None => ([], inl Raised)
  end).

(** sk_openapi_plugin_function_reader.py, [main] from line 24 on *)
Definition reader_main (functions : list Function) : script unit :=
  print_functions functions.

(** sk_openapi_plugin_function_executor.py, [main] from line 24 on *)
Definition executor_main : script unit := post_item.

(** fake_openapi_plugin_sample.py, [main] from line 20 on *)
Definition sample_main (functions : list Function) : script unit :=
  seq (print_functions functions) (fun _ =>
  seq sys_exit (fun _ : unit =>
  post_item)).

End PluginScripts.

End Agent.

(** ** More of binary64 *)

(** [-x] *)
Definition fneg : float -> float := SFopp.

(** [mirror x y]: [y] is [-x], or both are zeros; on numbers, what
    [y == -x] says. *)
Definition mirror (x y : float) : Prop :=
  y = fneg x \/ exists s s', x = S754_zero s /\ y = S754_zero s'.

(* ================================================================== *)
(** * Properties                                                       *)
(* ================================================================== *)

Import Shop.

(** ** Lists: what the generator of line 162 finds *)

Section FirstMatch.
Context {A : Type} (p : A -> bool).

Lemma next_or_None_absent (l : list A) :
  (forall x, In x l -> p x = false) -> next_or_None p l = None.
Proof.
  unfold next_or_None.
  induction l as [|a l IH]; intros Hall; simpl; [reflexivity|].
  rewrite (Hall a (or_introl eq_refl)).
  apply IH. intros x Hx. apply Hall. now right.
Qed.

Lemma next_or_None_first (l : list A) (x : A) :
  next_or_None p l = Some x <->
  exists before after,
    l = (before ++ x :: after)%list /\ p x = true /\
    Forall (fun y => p y = false) before.
Proof.
  unfold next_or_None. split.
  - revert x. induction l as [|a l IH]; intros x; simpl; [discriminate|].
    destruct (p a) eqn:Ha.
    + intros [= <-]. exists [], l. repeat split; auto.
    + intros Hx. destruct (IH x Hx) as (b & c & -> & Hp & Hb).
      exists (a :: b), c. repeat split; auto.
  - intros (before & after & -> & Hp & Hb).
    induction Hb as [|y b Hy Hb IH]; simpl.
    + now rewrite Hp.
    + now rewrite Hy.
Qed.
End FirstMatch.

(** ** The two ways through [purchase_item] *)

Lemma purchase_item_found order inv product :
  next_or_None (fun item => id item =? product_id order) inv = Some product ->
  purchase_item order inv =
    match total_price_of product order with
    | Return total =>
        (Return {| OrderConfirmation.message :=
                     "Thank you " ++ buyer_name order ++ " for your purchase!";
                   OrderConfirmation.product := product;
                   OrderConfirmation.quantity := quantity order;
                   OrderConfirmation.total_price := total |}, inv)
    | Raise e => (Raise e, inv)
    end.
Proof.
  intros Hfind. unfold purchase_item, hbind, read_store_inventory.
  rewrite Hfind. unfold lift.
  destruct (total_price_of product order); reflexivity.
Qed.

Lemma purchase_item_missing order inv :
  next_or_None (fun item => id item =? product_id order) inv = None ->
  purchase_item order inv =
    (match str (product_id order) with
     | Return rendered =>
         Raise (HTTPException 404
                  ("Product with ID " ++ rendered ++ " not found."))
     | Raise e => Raise e
     end, inv).
Proof.
  intros Hfind. unfold purchase_item, hbind, read_store_inventory.
  rewrite Hfind. unfold lift, raise.
  destruct (str (product_id order)); reflexivity.
Qed.

(** [str] below and beyond the 4300 digits. *)
Lemma str_in_range (z : Z) :
  Z.abs z < 10 ^ 4300 -> str z = Return (decimal z).
Proof.
  intros Hz. unfold str, int_max_str_digits.
  apply Z.leb_gt in Hz. now rewrite Hz.
Qed.

Lemma str_beyond (z : Z) :
  10 ^ 4300 <= Z.abs z ->
  str z = Raise (ValueError "Exceeds the limit (4300 digits) for integer string conversion; use sys.set_int_max_str_digits() to increase the limit").
Proof.
  intros Hz. unfold str, int_max_str_digits.
  apply Z.leb_le in Hz. now rewrite Hz.
Qed.

(** Ids of one or two digits are far below the limit. *)
Lemma two_digits_in_range (z : Z) : Z.abs z < 10 ^ 2 -> Z.abs z < 10 ^ 4300.
Proof.
  intros Hz. apply Z.lt_le_trans with (10 ^ 2); [exact Hz|].
  apply Z.pow_le_mono_r; [reflexivity|apply Z.leb_le; reflexivity].
Qed.

(** ** The seeded prices are the floats Python reads *)

Lemma literals_correctly_rounded :
  nearest 99999 100 (literal 99999 100) = true /\
  nearest 9999 100 (literal 9999 100) = true /\
  nearest 4999 100 (literal 4999 100) = true /\
  nearest 499 100 (literal 499 100) = true /\
  nearest 999 100 (literal 999 100) = true /\
  nearest 199 100 (literal 199 100) = true /\
  nearest 1198 100 (literal 1198 100) = true.
Proof. repeat split; vm_compute; reflexivity. Qed.

Lemma literal_9_99 : literal 999 100 = S754_finite false 5623870034678907 (-49).
Proof. vm_compute. reflexivity. Qed.

Lemma literal_1_99 : literal 199 100 = S754_finite false 8962163258467287 (-52).
Proof. vm_compute. reflexivity. Qed.

(** ** Purchases of a product that is not there *)

(** C2, as the code has it: when no product of the catalog carries the
    order's [product_id] and that id has at most 4300 decimal digits
    (its magnitude is below 10^4300), [purchase_item] raises
    [HTTPException(status_code=404)] whose detail is
    "Product with ID {product_id} not found." with the id in decimal; that
    is the whole outcome, and the inventory is as before.  For an id of
    more digits the f-string of line 164 raises [ValueError] instead. *)
Theorem purchase_item_not_found (inv : list StoreItem) (order : PurchaseOrder)
    (Hmissing : forall item, In item inv -> id item <> product_id order) :
  (Z.abs (product_id order) < 10 ^ 4300 ->
   purchase_item order inv =
     (Raise (HTTPException 404
        ("Product with ID " ++ decimal (product_id order) ++ " not found.")),
      inv)) /\
  (10 ^ 4300 <= Z.abs (product_id order) ->
   purchase_item order inv =
     (Raise (ValueError "Exceeds the limit (4300 digits) for integer string conversion; use sys.set_int_max_str_digits() to increase the limit"),
      inv)).
Proof.
  assert (Hnone : next_or_None
                    (fun item => id item =? product_id order) inv = None).
  { apply next_or_None_absent.
    intros item Hin. apply Z.eqb_neq. now apply Hmissing. }
  rewrite (purchase_item_missing _ _ Hnone). split; intros Hdigits.
  - now rewrite (str_in_range _ Hdigits).
  - now rewrite (str_beyond _ Hdigits).
Qed.

Lemma purchase_item_not_found_witness :
  let order := {| product_id := 99; buyer_name := "Carl"; quantity := 1 |} in
  (forall item, In item store_inventory -> id item <> product_id order) /\
  Z.abs (product_id order) < 10 ^ 4300 /\
  purchase_item order store_inventory =
    (Raise (HTTPException 404 "Product with ID 99 not found."),
     store_inventory).
Proof.
  intros order.
  assert (Hmissing : forall item,
             In item store_inventory -> id item <> product_id order).
  { simpl. intros item [<-|[<-|[<-|[<-|[]]]]]; discriminate. }
  assert (Hdigits : Z.abs (product_id order) < 10 ^ 4300)
    by (apply two_digits_in_range; reflexivity).
  split; [exact Hmissing|]. split; [exact Hdigits|].
  exact (proj1 (purchase_item_not_found store_inventory order Hmissing)
           Hdigits).
Defined.

(** C2 as it was stated fails for the product id 10^4300, which no
    product of the seeded inventory carries: the purchase does not end
    with the 404 but with the [ValueError] of the int-to-str
    conversion. *)
Lemma purchase_item_not_found_counterexample :
  let order :=
    {| product_id := 10 ^ 4300; buyer_name := "Carl"; quantity := 1 |} in
  (forall item, In item store_inventory -> id item <> product_id order) /\
  purchase_item order store_inventory =
    (Raise (ValueError "Exceeds the limit (4300 digits) for integer string conversion; use sys.set_int_max_str_digits() to increase the limit"),
     store_inventory) /\
  (forall status detail,
     fst (purchase_item order store_inventory)
     <> Raise (HTTPException status detail)).
Proof.
  intros order.
  assert (Hmissing : forall item,
             In item store_inventory -> id item <> product_id order).
  { intros item Hin Hid.
    assert (Hsmall : id item < 10 ^ 1) by
      (simpl in Hin; destruct Hin as [<-|[<-|[<-|[<-|[]]]]]; reflexivity).
    rewrite Hid in Hsmall. change (product_id order) with (10 ^ 4300) in Hsmall.
    apply (Z.lt_irrefl (10 ^ 4300)).
    apply Z.lt_le_trans with (10 ^ 1); [exact Hsmall|].
    apply Z.pow_le_mono_r; [reflexivity|apply Z.leb_le; reflexivity]. }
  assert (Hbeyond : 10 ^ 4300 <= Z.abs (product_id order)).
  { change (product_id order) with (10 ^ 4300).
    rewrite Z.abs_eq; [apply Z.le_refl|].
    apply Z.pow_nonneg. apply Z.leb_le. reflexivity. }
  assert (Hrun : purchase_item order store_inventory =
    (Raise (ValueError "Exceeds the limit (4300 digits) for integer string conversion; use sys.set_int_max_str_digits() to increase the limit"),
     store_inventory)).
  { rewrite purchase_item_missing.
    - now rewrite (str_beyond _ Hbeyond).
    - apply next_or_None_absent. intros item Hin.
      apply Z.eqb_neq. now apply Hmissing. }
  split; [exact Hmissing|]. split; [exact Hrun|].
  intros status detail. rewrite Hrun. discriminate.
Qed.

(** ** What a confirmation holds *)

(** C5: whenever [purchase_item] returns, the confirmation's message is
    "Thank you {buyer_name} for your purchase!", its quantity is the order's,
    and its product is the first item of the inventory, in list order, whose
    id is the order's [product_id] (the whole record). *)
Theorem purchase_item_confirmation
    (inv inv' : list StoreItem) (order : PurchaseOrder)
    (conf : OrderConfirmation.t)
    (Hok : purchase_item order inv = (Return conf, inv')) :
  OrderConfirmation.message conf
    = "Thank you " ++ buyer_name order ++ " for your purchase!" /\
  OrderConfirmation.quantity conf = quantity order /\
  exists before after,
    inv = (before ++ OrderConfirmation.product conf :: after)%list /\
    id (OrderConfirmation.product conf) = product_id order /\
    Forall (fun item => id item <> product_id order) before.
Proof.
  destruct (next_or_None (fun item => id item =? product_id order) inv)
    as [product|] eqn:Hfind.
  - rewrite (purchase_item_found _ _ _ Hfind) in Hok.
    destruct (total_price_of product order); [|discriminate].
    injection Hok as <- _. simpl. repeat split.
    apply next_or_None_first in Hfind.
    destruct Hfind as (before & after & -> & Hid & Hbefore).
    exists before, after. repeat split.
    + now apply Z.eqb_eq.
    + eapply Forall_impl; [|exact Hbefore].
      intros item. apply Z.eqb_neq.
  - rewrite (purchase_item_missing _ _ Hfind) in Hok.
    destruct (str (product_id order)); discriminate.
Qed.

Lemma purchase_item_confirmation_witness :
  exists conf,
    purchase_item {| product_id := 1; buyer_name := "Alice"; quantity := 2 |}
      store_inventory = (Return conf, store_inventory) /\
    OrderConfirmation.message conf = "Thank you Alice for your purchase!" /\
    OrderConfirmation.quantity conf = 2 /\
    name (OrderConfirmation.product conf) = "Surface Laptop".
Proof.
  eexists. split; [vm_compute; reflexivity|].
  match goal with
  | |- OrderConfirmation.message ?c = _ /\ _ =>
      destruct (purchase_item_confirmation store_inventory store_inventory
                  {| product_id := 1; buyer_name := "Alice"; quantity := 2 |}
                  c eq_refl) as (Hm & Hq & _)
  end.
  split; [exact Hm|]. split; [exact Hq|]. reflexivity.
Defined.

(** ** The default quantity *)


(** ** The inventory is only read *)

(** C8: [purchase_item] leaves the inventory as it found it, whether it
    returns or raises, so [list_store_items] answers the same before and
    after; and a second call with the same order returns or raises exactly
    what the first did. *)
Theorem purchase_item_frame (order : PurchaseOrder) (inv : list StoreItem) :
  let after := snd (purchase_item order inv) in
  after = inv /\
  list_store_items after = list_store_items inv /\
  purchase_item order after = purchase_item order inv.
Proof.
  assert (Hframe : snd (purchase_item order inv) = inv).
  { destruct (next_or_None (fun item => id item =? product_id order) inv)
      as [product|] eqn:Hfind.
    - rewrite (purchase_item_found _ _ _ Hfind).
      now destruct (total_price_of product order).
    - rewrite (purchase_item_missing _ _ Hfind). reflexivity. }
  cbv zeta. rewrite Hframe. repeat split.
Qed.

(** ** Listing *)

(** C9: [list_store_items] always returns, returns the inventory itself
    (every item, in list order) and leaves it in place; on the seeded
    inventory that is the four products 1, 2, 3, 4 in this order. *)
Theorem list_store_items_whole_inventory :
  (forall inv, list_store_items inv = (Return inv, inv)) /\
  list_store_items store_inventory = (Return store_inventory, store_inventory) /\
  map id store_inventory = [1; 2; 3; 4] /\
  map name store_inventory
    = ["Surface Laptop"; "Wireless Mouse"; "Pizza"; "Frico"].
Proof. repeat split. Qed.

(** ** Scenario B *)

(** C4: on the one-product catalog holding the pizza (9.99, tax 1.99), the
    order for product 3 by Bob, built without a quantity, is confirmed with
    quantity 1 and a total that is the float 11.98. *)
Theorem scenario_B_total :
  let catalog :=
    [ {| id := 3; name := "Pizza"; description := None;
         price := literal 999 100; tax := Some (literal 199 100) |} ] in
  let order := PurchaseOrder_init 3 "Bob" None in
  exists conf,
    purchase_item order catalog = (Return conf, catalog) /\
    OrderConfirmation.quantity conf = 1 /\
    OrderConfirmation.total_price conf = Float (literal 1198 100) /\
    nearest 1198 100 (literal 1198 100) = true.
Proof.
  intros catalog order. eexists. split; [vm_compute; reflexivity|].
  repeat split; vm_compute; reflexivity.
Qed.

(** ** The items API *)

(** C10: [read_item] ignores its argument: for every [item_id] it returns
    the item named "Sample", described "Example item", with price the float
    100 and tax the float 10; it never raises. *)
Theorem read_item_constant (item_id : Z) :
  exists p t,
    Items.read_item item_id =
      Return {| Items.name := "Sample";
                Items.description := Some "Example item";
                Items.price := p;
                Items.tax := Some t |} /\
    exactly 100 p = true /\ exactly 10 t = true.
Proof.
  do 2 eexists. split; [vm_compute; reflexivity|].
  split; vm_compute; reflexivity.
Qed.

(* ================================================================== *)
(** * binary64 rounding                                                *)
(* ================================================================== *)

(** What the arithmetic of line 167 needs from IEEE 754: rounding yields
    well-formed floats, stays finite below 2^1023, and multiplying by 1.0
    changes nothing. *)

Section Binary64.

Lemma fexp_eq (e : Z) : fexp prec emax e = Z.max (e - 53) (-1074).
Proof. reflexivity. Qed.

Lemma digits2_pos_size (m : positive) : digits2_pos m = Pos.size m.
Proof. induction m; simpl; congruence. Qed.

Lemma digits2_pos_log2 (m : positive) :
  Z.pos (digits2_pos m) = Z.log2 (Z.pos m) + 1.
Proof.
  rewrite digits2_pos_size.
  destruct m; simpl; rewrite ?Pos2Z.inj_succ; lia.
Qed.

Lemma Zdigits2_log2 (m : Z) : 0 < m -> Zdigits2 m = Z.log2 m + 1.
Proof. destruct m; try lia. intros _. apply digits2_pos_log2. Qed.

(** One step of the shifter halves the mantissa. *)
Lemma shr_1_m (mrs : shr_record) :
  0 <= shr_m mrs -> shr_m (shr_1 mrs) = Z.shiftr (shr_m mrs) 1.
Proof.
  destruct mrs as [m r s]. simpl. intros Hm.
  destruct m as [|[p|p|]|p]; try lia; reflexivity.
Qed.

Lemma shr_iter_m (n : positive) (mrs : shr_record) :
  0 <= shr_m mrs ->
  shr_m (iter_pos shr_1 n mrs) = Z.shiftr (shr_m mrs) (Z.pos n).
Proof.
  revert mrs. induction n as [n IH|n IH|]; intros mrs Hm; simpl iter_pos.
  - assert (H1 : 0 <= shr_m (shr_1 mrs))
      by (rewrite shr_1_m by assumption; now apply Z.shiftr_nonneg).
    assert (H2 : 0 <= shr_m (iter_pos shr_1 n (shr_1 mrs)))
      by (rewrite IH by assumption; now apply Z.shiftr_nonneg).
    rewrite (IH _ H2), (IH _ H1), shr_1_m by assumption.
    rewrite !Z.shiftr_shiftr by lia. f_equal. lia.
  - assert (H2 : 0 <= shr_m (iter_pos shr_1 n mrs))
      by (rewrite IH by assumption; now apply Z.shiftr_nonneg).
    rewrite (IH _ H2), (IH _ Hm).
    rewrite !Z.shiftr_shiftr by lia. f_equal. lia.
  - now apply shr_1_m.
Qed.

Lemma shr_m_shift (mrs : shr_record) (e n : Z) :
  0 <= shr_m mrs -> 0 <= n ->
  shr_m (fst (shr mrs e n)) = Z.shiftr (shr_m mrs) n /\
  snd (shr mrs e n) = e + n.
Proof.
  intros Hm Hn. destruct n as [|n|n]; try lia; simpl.
  - split; [reflexivity|lia].
  - split; [now apply shr_iter_m|reflexivity].
Qed.

Lemma shr_record_of_loc_m (m : Z) (l : location) :
  shr_m (shr_record_of_loc m l) = m.
Proof. destruct l as [|[]]; reflexivity. Qed.

Lemma round_nearest_even_cases (m : Z) (l : location) :
  round_nearest_even m l = m \/ round_nearest_even m l = m + 1.
Proof.
  destruct l as [|[]]; simpl; auto. destruct (Z.even m); auto.
Qed.

(** [shr_fexp] brings the exponent up to the canonical one, dropping as
    many low bits of the mantissa. *)
Lemma shr_fexp_spec (m : Z) (e : Z) (l : location) :
  0 <= m ->
  let E := fexp prec emax (Zdigits2 m + e) in
  let n := Z.max 0 (E - e) in
  shr_m (fst (shr_fexp prec emax m e l)) = Z.shiftr m n /\
  snd (shr_fexp prec emax m e l) = e + n.
Proof.
  intros Hm E n. unfold shr_fexp. fold E.
  destruct (Z.max_spec 0 (E - e)) as [[Hlt Hmax]|[Hle Hmax]]; fold n in Hmax.
  - destruct (shr_m_shift (shr_record_of_loc m l) e (E - e)) as [H1 H2];
      rewrite ?shr_record_of_loc_m; try lia.
    rewrite H1, H2, shr_record_of_loc_m, Hmax. split; reflexivity.
  - rewrite Hmax. unfold shr.
    destruct (E - e) as [|p|p] eqn:Hd; try lia; simpl;
      rewrite shr_record_of_loc_m; split; try reflexivity; lia.
Qed.

Lemma log2_shiftr_pos (a n : Z) :
  0 < a -> 0 <= n -> 0 < Z.shiftr a n ->
  Z.log2 (Z.shiftr a n) = Z.log2 a - n /\ n <= Z.log2 a.
Proof.
  intros Ha Hn Hs.
  assert (Hnz : ~ Z.log2 a < n).
  { intros Hlt.
    assert (Z.shiftr a n = 0) by (apply Z.shiftr_eq_0_iff; lia). lia. }
  rewrite Z.log2_shiftr by assumption. lia.
Qed.

(** Rounding a positive mantissa whose exponent is at most the canonical
    one gives a well-formed float, and a finite one when the value is
    below 2^1023. *)
Lemma binary_round_aux_valid
    (s : bool) (m : positive) (e : Z) (l : location) :
  e <= fexp prec emax (Z.pos (digits2_pos m) + e) ->
  let r := binary_round_aux prec emax s (Z.pos m) e l in
  valid r = true /\
  (Z.log2 (Z.pos m) + e < 1023 -> isfinite r = true).
Proof.
  intros He. unfold binary_round_aux.
  destruct (shr_fexp prec emax (Z.pos m) e l) as [mrs' e'] eqn:H1.
  destruct (shr_fexp_spec (Z.pos m) e l) as [Hm' He']; [lia|].
  rewrite H1 in Hm', He'. simpl fst in Hm'. simpl snd in He'.
  set (m1 := round_nearest_even (shr_m mrs') (loc_of_shr_record mrs')).
  assert (Hm1 : m1 = shr_m mrs' \/ m1 = shr_m mrs' + 1)
    by apply round_nearest_even_cases.
  destruct (shr_fexp prec emax m1 e' loc_Exact) as [mrs'' e''] eqn:H2.
  assert (Hm'0 : 0 <= shr_m mrs')
    by (rewrite Hm'; now apply Z.shiftr_nonneg).
  destruct (shr_fexp_spec m1 e' loc_Exact) as [Hm'' He'']; [lia|].
  rewrite H2 in Hm'', He''. simpl fst in Hm''. simpl snd in He''.
  simpl Zdigits2 in *.
  rewrite digits2_pos_log2 in *.
  rewrite fexp_eq in *.
  pose proof (Z.log2_nonneg (Z.pos m)) as HL.
  set (L := Z.log2 (Z.pos m)) in *.
  destruct (shr_m mrs'') as [|q|q] eqn:Hq.
  - split; reflexivity.
  - assert (Hm1pos : 0 < m1).
    { destruct (Z.eq_dec m1 0) as [->|]; [|lia].
      rewrite Z.shiftr_0_l in Hm''. lia. }
    rewrite Zdigits2_log2 in Hm'', He'' by assumption.
    destruct (log2_shiftr_pos m1
                (Z.max 0 (Z.max (Z.log2 m1 + 1 + e' - 53) (-1074) - e')))
      as [Hlq Hnq]; try lia.
    rewrite <- Hm'' in Hlq.
    assert (HL1 : Z.log2 m1 + e' <= Z.max (L + e + 1) (-1074) /\
                  (0 < shr_m mrs' -> L + e <= Z.log2 m1 + e')).
    { destruct (Z.eq_dec (shr_m mrs') 0) as [Hz|Hnz].
      - assert (H : m1 = 1) by lia. subst m1. rewrite H. simpl Z.log2.
        split; [|lia].
        rewrite Hz in Hm'. symmetry in Hm'.
        apply Z.shiftr_eq_0_iff in Hm'. fold L in Hm'. lia.
      - destruct (log2_shiftr_pos (Z.pos m)
                    (Z.max 0 (Z.max (L + 1 + e - 53) (-1074) - e)))
          as [Hl' Hn']; try lia.
        rewrite <- Hm' in Hl'. fold L in Hl', Hn'.
        destruct Hm1 as [->| ->].
        + lia.
        + pose proof (Z.log2_succ_or (shr_m mrs')) as Hor.
          pose proof (Z.log2_le_mono (shr_m mrs') (shr_m mrs' + 1)).
          unfold Z.succ in Hor. lia. }
    assert (Hzero : shr_m mrs' = 0 -> L + e < -1074).
    { intros Hz. rewrite Hz in Hm'. symmetry in Hm'.
      apply Z.shiftr_eq_0_iff in Hm'. fold L in Hm'. lia. }
    destruct (Z.leb_spec e'' (emax - prec)) as [Hle|Hgt].
    + split; [|reflexivity].
      unfold valid, valid_binary, bounded, canonical_mantissa.
      rewrite digits2_pos_log2, fexp_eq.
      apply andb_true_intro. split.
      * apply Z.eqb_eq. unfold emax, prec in *. lia.
      * apply Z.leb_le. exact Hle.
    + split; [reflexivity|]. unfold emax, prec in *. simpl. lia.
  - exfalso.
    assert (0 <= Z.shiftr m1
                   (Z.max 0 (Z.max (Zdigits2 m1 + e' - 53) (-1074) - e')))
      by (apply Z.shiftr_nonneg; lia).
    lia.
Qed.

Lemma iter_xO_shiftl (m d : positive) :
  Z.pos (Pos.iter xO m d) = Z.shiftl (Z.pos m) (Z.pos d).
Proof.
  simpl Z.shiftl.
  apply (Pos.iter_swap_gen _ _ Z.pos xO (Z.mul 2)). reflexivity.
Qed.

Lemma digits2_pos_iter_xO (m d : positive) :
  Z.pos (digits2_pos (Pos.iter xO m d)) = Z.pos (digits2_pos m) + Z.pos d.
Proof.
  rewrite !digits2_pos_log2, iter_xO_shiftl, Z.log2_shiftl; lia.
Qed.

Lemma binary_round_valid (s : bool) (m : positive) (e : Z) :
  let r := binary_round prec emax s m e in
  valid r = true /\
  (Z.log2 (Z.pos m) + e < 1023 -> isfinite r = true).
Proof.
  unfold binary_round, shl_align.
  set (E := fexp prec emax (Z.pos (digits2_pos m) + e)).
  destruct (E - e) as [|d|d] eqn:Hd.
  - apply binary_round_aux_valid. fold E. lia.
  - apply binary_round_aux_valid. fold E. lia.
  - assert (Hlog : Z.log2 (Z.pos (Pos.iter xO m d))
                   = Z.log2 (Z.pos m) + Z.pos d)
      by (rewrite iter_xO_shiftl; apply Z.log2_shiftl; lia).
    assert (HE : fexp prec emax
                   (Z.pos (digits2_pos (Pos.iter xO m d)) + E) = E).
    { replace (Z.pos (digits2_pos (Pos.iter xO m d)) + E)
        with (Z.pos (digits2_pos m) + e); [reflexivity|].
      rewrite digits2_pos_iter_xO. lia. }
    destruct (binary_round_aux_valid s (Pos.iter xO m d) E loc_Exact)
      as [Hv Hf].
    + rewrite HE. lia.
    + split; [exact Hv|]. intros Hlt. apply Hf. rewrite Hlog. lia.
Qed.

Lemma binary_normalize_valid (z e : Z) (szero : bool) :
  let r := binary_normalize prec emax z e szero in
  valid r = true /\
  (Z.log2 (Z.abs z) + e < 1023 -> isfinite r = true).
Proof.
  destruct z as [|m|m]; simpl.
  - split; reflexivity.
  - apply binary_round_valid.
  - apply binary_round_valid.
Qed.

(** The sum of two well-formed floats is well formed. *)
Lemma fadd_valid (x y : float) :
  valid x = true -> valid y = true -> valid (fadd x y) = true.
Proof.
  intros Hx Hy.
  destruct x as [sx|sx| |sx mx ex], y as [sy|sy| |sy my ey];
    try destruct sx; try destruct sy; try reflexivity; try assumption.
  all: apply binary_normalize_valid.
Qed.

(** [x * 1.0] is [x]. *)
Lemma fmul_one (x : float) :
  valid x = true -> fmul x (float_of_Z 1) = x.
Proof.
  change (float_of_Z 1) with (S754_finite false 4503599627370496 (-52)).
  destruct x as [s|s| |s m e];
    try reflexivity; try (destruct s; reflexivity).
  intros Hb. unfold valid in Hb. simpl in Hb.
  apply andb_prop in Hb. destruct Hb as [Hc Hb].
  apply Z.eqb_eq in Hc.
  unfold fmul, SFmul. rewrite xorb_false_r.
  rewrite Pos.mul_comm.
  change (4503599627370496 * m)%positive with (Pos.iter xO m 52).
  assert (Hd : Zdigits2 (Z.pos (Pos.iter xO m 52)) + (e + -52)
               = Z.pos (digits2_pos m) + e).
  { unfold Zdigits2. rewrite digits2_pos_iter_xO. lia. }
  unfold binary_round_aux.
  unfold shr_fexp at 1. rewrite Hd, Hc.
  replace (e - (e + -52)) with 52 by lia.
  cbv [shr shr_record_of_loc iter_pos Pos.iter shr_1 orb shr_m
       loc_of_shr_record round_nearest_even].
  replace (e + -52 + 52) with e by lia.
  unfold shr_fexp, Zdigits2. rewrite Hc, Z.sub_diag.
  cbv [shr shr_m shr_record_of_loc].
  rewrite Hb. reflexivity.
Qed.

(** The rounding bit is the last bit shifted out. *)
Lemma shr_1_r (mrs : shr_record) :
  0 <= shr_m mrs -> shr_r (shr_1 mrs) = Z.odd (shr_m mrs).
Proof.
  destruct mrs as [m r s]. simpl. intros Hm.
  destruct m as [|[p|p|]|p]; try lia; reflexivity.
Qed.

Lemma shr_iter_nonneg (n : positive) (mrs : shr_record) :
  0 <= shr_m mrs -> 0 <= shr_m (iter_pos shr_1 n mrs).
Proof.
  intros Hm. rewrite shr_iter_m by assumption. now apply Z.shiftr_nonneg.
Qed.

Lemma shr_iter_r (n : positive) (mrs : shr_record) :
  0 <= shr_m mrs ->
  shr_r (iter_pos shr_1 n mrs) = Z.testbit (shr_m mrs) (Z.pos n - 1).
Proof.
  revert mrs. induction n as [n IH|n IH|]; intros mrs Hm; simpl iter_pos.
  - assert (H1 : 0 <= shr_m (shr_1 mrs))
      by (rewrite shr_1_m by assumption; now apply Z.shiftr_nonneg).
    rewrite IH by now apply shr_iter_nonneg.
    rewrite shr_iter_m, shr_1_m by assumption.
    rewrite Z.shiftr_shiftr, Z.shiftr_spec by lia. f_equal. lia.
  - rewrite IH by now apply shr_iter_nonneg.
    rewrite shr_iter_m by assumption.
    rewrite Z.shiftr_spec by lia. f_equal. lia.
  - rewrite shr_1_r by assumption. symmetry. apply Z.bit0_odd.
Qed.

Lemma round_record_cases (mrs : shr_record) :
  round_nearest_even (shr_m mrs) (loc_of_shr_record mrs) =
    if shr_r mrs && (shr_s mrs || Z.odd (shr_m mrs))
    then shr_m mrs + 1 else shr_m mrs.
Proof.
  destruct mrs as [m [|] [|]]; simpl; try reflexivity.
  rewrite <- Z.negb_even. destruct (Z.even m); reflexivity.
Qed.

Lemma shr_fexp_r (m : positive) (e : Z) :
  let E := fexp prec emax (Z.pos (digits2_pos m) + e) in
  e < E ->
  shr_r (fst (shr_fexp prec emax (Z.pos m) e loc_Exact))
    = Z.testbit (Z.pos m) (E - e - 1).
Proof.
  intros E HE. unfold shr_fexp. simpl Zdigits2. fold E.
  destruct (E - e) as [|n|n] eqn:Hn; try lia.
  simpl. rewrite shr_iter_r by (simpl; lia). reflexivity.
Qed.

Lemma shiftr_970 (m : Z) :
  Z.shiftr m 970 = 2 * Z.shiftr m 971 + Z.b2z (Z.testbit m 970).
Proof.
  rewrite (Z.div2_odd (Z.shiftr m 970)) at 1.
  rewrite Z.div2_spec, Z.shiftr_shiftr by lia.
  rewrite <- Z.bit0_odd, Z.shiftr_spec by lia. reflexivity.
Qed.

Lemma shiftr_pos (a n : Z) :
  0 < a -> n <= Z.log2 a -> 0 < Z.shiftr a n.
Proof.
  intros Ha Hn.
  assert (0 <= Z.shiftr a n) by (apply Z.shiftr_nonneg; lia).
  assert (Z.shiftr a n <> 0)
    by (rewrite Z.shiftr_eq_0_iff; lia).
  lia.
Qed.

(** In the last binade and above, an integer overflows exactly from
    2^1024 - 2^970 on: the midpoint between the largest float and 2^1024. *)
Lemma binary_round_large (s : bool) (m : positive) :
  1023 <= Z.log2 (Z.pos m) ->
  isfinite (binary_round prec emax s m 0) = true <->
  Z.pos m < 2 ^ 1024 - 2 ^ 970.
Proof.
  intros HL.
  unfold binary_round, shl_align.
  set (E := fexp prec emax (Z.pos (digits2_pos m) + 0)).
  assert (HE : E = Z.log2 (Z.pos m) - 52)
    by (unfold E; rewrite fexp_eq, digits2_pos_log2; lia).
  destruct (E - 0) as [|d|d] eqn:Hd; try lia. clear d Hd.
  unfold binary_round_aux.
  destruct (shr_fexp prec emax (Z.pos m) 0 loc_Exact) as [mrs' e'] eqn:H1.
  destruct (shr_fexp_spec (Z.pos m) 0 loc_Exact) as [Hm' He']; [lia|].
  pose proof (shr_fexp_r m 0) as Hr. fold E in Hr.
  rewrite H1 in Hm', He', Hr. simpl fst in Hm', Hr. simpl snd in He'.
  simpl Zdigits2 in Hm', He'. fold E in Hm', He'.
  specialize (Hr ltac:(lia)).
  rewrite round_record_cases.
  set (m1 := if shr_r mrs' && (shr_s mrs' || Z.odd (shr_m mrs'))
             then shr_m mrs' + 1 else shr_m mrs').
  replace (Z.max 0 (E - 0)) with E in Hm', He' by lia.
  assert (Hpos' : 0 < shr_m mrs')
    by (rewrite Hm'; apply shiftr_pos; lia).
  assert (Hl' : Z.log2 (shr_m mrs') = 52)
    by (rewrite Hm', Z.log2_shiftr; lia).
  assert (Hm1 : (m1 = shr_m mrs' /\
                 shr_r mrs' && (shr_s mrs' || Z.odd (shr_m mrs')) = false) \/
                (m1 = shr_m mrs' + 1 /\ shr_r mrs' = true)).
  { unfold m1. destruct (shr_r mrs'); simpl; [|now left].
    destruct (shr_s mrs' || Z.odd (shr_m mrs')); [right|left]; auto. }
  clearbody m1 E.
  assert (Hl1 : Z.log2 m1 = 52 \/ Z.log2 m1 = 53).
  { destruct Hm1 as [[-> _]|[-> _]]; [now left|].
    pose proof (Z.log2_succ_or (shr_m mrs')) as Hor.
    unfold Z.succ in Hor. lia. }
  assert (Hpos1 : 0 < m1) by (destruct Hm1 as [[-> _]|[-> _]]; lia).
  destruct (shr_fexp prec emax m1 e' loc_Exact) as [mrs'' e''] eqn:H2.
  destruct (shr_fexp_spec m1 e' loc_Exact) as [Hm'' He'']; [lia|].
  rewrite H2 in Hm'', He''. simpl fst in Hm''. simpl snd in He''.
  rewrite Zdigits2_log2, fexp_eq in Hm'', He'' by assumption.
  assert (Hpos'' : 0 < shr_m mrs'')
    by (rewrite Hm''; apply shiftr_pos; lia).
  destruct (shr_m mrs'') as [|q|q]; try lia.
  assert (Hfin : isfinite (if e'' <=? emax - prec
                           then S754_finite s q e'' else S754_infinity s)
                 = true <-> Z.log2 (Z.pos m) + Z.log2 m1 <= 1075).
  { unfold emax, prec.
    destruct (Z.leb_spec e'' (1024 - 53)); cbn [isfinite]; split; intros;
      first [reflexivity | discriminate | lia | exfalso; lia]. }
  rewrite Hfin. clear Hfin Hm'' He'' Hpos'' H2 q.
  destruct (Z.eq_dec (Z.log2 (Z.pos m)) 1023) as [H1023|Hbig].
  - (* 2^1023 <= m < 2^1024: the last binade *)
    assert (HE971 : E = 971) by lia.
    rewrite HE971 in Hm', Hr. change (971 - 0 - 1) with 970 in Hr.
    pose proof (shiftr_970 (Z.pos m)) as Ha.
    rewrite <- Hm', <- Hr in Ha.
    rewrite Z.shiftr_div_pow2 in Ha by lia.
    assert (Hlt' : shr_m mrs' < 2 ^ 53)
      by (apply Z.log2_lt_pow2; lia).
    assert (Hbound : Z.pos m < 2 ^ 1024 - 2 ^ 970 <->
                     Z.pos m / 2 ^ 970 < 2 ^ 54 - 1).
    { split; intros H.
      - apply Z.div_lt_upper_bound; [lia|]. 
        replace (2 ^ 970 * (2 ^ 54 - 1)) with (2 ^ 1024 - 2 ^ 970) by reflexivity.
        exact H.
      - destruct (Z.lt_ge_cases (Z.pos m) (2 ^ 1024 - 2 ^ 970)) as [|Hge];
          [assumption|].
        assert (2 ^ 54 - 1 <= Z.pos m / 2 ^ 970).
        { apply Z.div_le_lower_bound; [lia|].
          replace (2 ^ 970 * (2 ^ 54 - 1)) with (2 ^ 1024 - 2 ^ 970) by reflexivity.
          exact Hge. }
        lia. }
    rewrite Hbound, Ha. clear Hbound Ha.
    destruct Hm1 as [[Heq Hno]|[Heq Hup]].
    + rewrite Heq, Hl'. split; [intros _|lia].
      destruct (Z.eq_dec (shr_m mrs') (2 ^ 53 - 1)) as [Hmax|Hnmax].
      * rewrite Hmax in Hno. 
        change (Z.odd (2 ^ 53 - 1)) with true in Hno.
        rewrite orb_true_r, andb_true_r in Hno. rewrite Hno. cbn [Z.b2z]. lia.
      * destruct (shr_r mrs'); cbn [Z.b2z]; lia.
    + rewrite Hup. cbn [Z.b2z].
      assert (Hl1' : Z.log2 m1 = 53 <-> 2 ^ 53 <= m1)
        by (split; intros; [apply Z.log2_le_pow2; lia|
                            apply Z.log2_le_pow2 in H; lia]).
      lia.
  - assert (2 ^ 1024 <= Z.pos m) by (apply Z.log2_le_pow2; lia).
    lia.
Qed.

Lemma binary_round_aux_not_nan (s : bool) (m : positive) (e : Z) (l : location) :
  binary_round_aux prec emax s (Z.pos m) e l <> S754_nan.
Proof.
  unfold binary_round_aux.
  destruct (shr_fexp prec emax (Z.pos m) e l) as [mrs' e'] eqn:H1.
  destruct (shr_fexp_spec (Z.pos m) e l) as [Hm' _]; [lia|].
  rewrite H1 in Hm'. simpl fst in Hm'.
  assert (Hm'0 : 0 <= shr_m mrs')
    by (rewrite Hm'; now apply Z.shiftr_nonneg).
  set (m1 := round_nearest_even (shr_m mrs') (loc_of_shr_record mrs')).
  assert (Hm1 : 0 <= m1)
    by (destruct (round_nearest_even_cases (shr_m mrs')
                    (loc_of_shr_record mrs')); lia).
  destruct (shr_fexp prec emax m1 e' loc_Exact) as [mrs'' e''] eqn:H2.
  destruct (shr_fexp_spec m1 e' loc_Exact) as [Hm'' _]; [lia|].
  rewrite H2 in Hm''. simpl fst in Hm''.
  assert (Hm''0 : 0 <= shr_m mrs'')
    by (rewrite Hm''; now apply Z.shiftr_nonneg).
  destruct (shr_m mrs'') as [|q|q]; try lia; try discriminate.
  destruct (e'' <=? emax - prec); discriminate.
Qed.

Lemma float_of_Z_not_nan (z : Z) : float_of_Z z <> S754_nan.
Proof.
  unfold float_of_Z, binary_normalize, binary_round.
  destruct z as [|m|m]; try discriminate.
  - destruct (shl_align m 0 _). apply binary_round_aux_not_nan.
  - destruct (shl_align m 0 _). apply binary_round_aux_not_nan.
Qed.

Lemma PyLong_AsDouble_returns (z : Z) :
  (exists q, PyLong_AsDouble z = Return q) <-> isfinite (float_of_Z z) = true.
Proof.
  unfold PyLong_AsDouble. pose proof (float_of_Z_not_nan z) as Hnan.
  destruct (float_of_Z z) as [s|s| |s m e]; simpl; split;
    try reflexivity; try discriminate; try congruence; try (intros [q Hq]; discriminate);
    intros _; eexists; reflexivity.
Qed.

(** The integers that have a float. *)
Lemma float_of_Z_finite_iff (z : Z) :
  isfinite (float_of_Z z) = true <-> Z.abs z < 2 ^ 1024 - 2 ^ 970.
Proof.
  assert (Hpos : forall s m,
             isfinite (binary_round prec emax s m 0) = true <->
             Z.pos m < 2 ^ 1024 - 2 ^ 970).
  { intros s m.
    destruct (Z.lt_ge_cases (Z.log2 (Z.pos m)) 1023) as [Hsmall|Hlarge].
    - split; intros _.
      + assert (Z.pos m < 2 ^ 1023) by (apply Z.log2_lt_pow2; lia). lia.
      + apply binary_round_valid. lia.
    - now apply binary_round_large. }
  destruct z as [|m|m].
  - split; [intros _; reflexivity|reflexivity].
  - apply Hpos.
  - apply Hpos.
Qed.

Lemma PyLong_AsDouble_raises (z : Z) :
  isfinite (float_of_Z z) = false ->
  PyLong_AsDouble z = Raise (OverflowError "int too large to convert to float").
Proof.
  unfold PyLong_AsDouble. pose proof (float_of_Z_not_nan z) as Hnan.
  destruct (float_of_Z z); simpl; try discriminate; try congruence.
Qed.

Lemma PyLong_AsDouble_in_range (z : Z) :
  Z.abs z < 2 ^ 1024 - 2 ^ 970 -> PyLong_AsDouble z = Return (float_of_Z z).
Proof.
  intros Hz. apply float_of_Z_finite_iff in Hz. unfold PyLong_AsDouble.
  destruct (float_of_Z z); try reflexivity; discriminate.
Qed.

Lemma float_of_Z_valid (z : Z) : valid (float_of_Z z) = true.
Proof. apply (binary_normalize_valid z 0 false). Qed.
End Binary64.

(* ================================================================== *)
(** * The total of a purchase                                          *)
(* ================================================================== *)

Lemma PyLong_AsDouble_0 : PyLong_AsDouble 0 = Return (S754_zero false).
Proof. reflexivity. Qed.

(** Line 167 once the quantity has gone through [float(..)]: the tax term is
    a float product when the tax is a nonzero float, and the int 0, added as
    [0.0], otherwise. *)
Lemma total_price_of_returns (P : StoreItem) (order : PurchaseOrder) (q : float) :
  PyLong_AsDouble (quantity order) = Return q ->
  total_price_of P order =
    Return (Float (fadd (fmul (price P) q)
                        (match tax P with
                         | Some t => if truthy t then fmul t q
                                     else S754_zero false
                         | None => S754_zero false
                         end))).
Proof.
  intros Hq. unfold total_price_of, mul, or_0. simpl. rewrite Hq. simpl.
  destruct (tax P) as [t|]; [destruct (truthy t)|]; simpl;
    rewrite ?Hq; reflexivity.
Qed.

Lemma total_price_of_raises (P : StoreItem) (order : PurchaseOrder) (e : exn) :
  PyLong_AsDouble (quantity order) = Raise e ->
  total_price_of P order = Raise e.
Proof.
  intros Hq. unfold total_price_of, mul. simpl. now rewrite Hq.
Qed.

Lemma next_or_None_present {A} (p : A -> bool) (l : list A) :
  (exists x, In x l /\ p x = true) -> exists y, next_or_None p l = Some y.
Proof.
  intros (x & Hin & Hp). unfold next_or_None.
  destruct (find p l) as [y|] eqn:Hfind; [now exists y|].
  rewrite (find_none p l Hfind x Hin) in Hp. discriminate.
Qed.

(** ** C1 *)

(** C1, as the code has it: when [P] is the first product of the inventory
    whose id is the order's [product_id] and the quantity is below
    2^1024 - 2^970 in magnitude, [purchase_item] returns a confirmation for
    [P] whose total is the binary64 value [price * q + tax * q], where [q]
    is the quantity as a float and each operation is rounded; the tax term
    is [0.0] when the tax is absent or zero. *)
Theorem purchase_item_total_price
    (inv before after : list StoreItem) (P : StoreItem)
    (order : PurchaseOrder)
    (Hinv : inv = (before ++ P :: after)%list)
    (Hbefore : Forall (fun item => id item <> product_id order) before)
    (HP : id P = product_id order)
    (Hq : Z.abs (quantity order) < 2 ^ 1024 - 2 ^ 970) :
  exists conf,
    purchase_item order inv = (Return conf, inv) /\
    OrderConfirmation.product conf = P /\
    OrderConfirmation.total_price conf =
      let q := float_of_Z (quantity order) in
      Float (fadd (fmul (price P) q)
                  (match tax P with
                   | Some t => if truthy t then fmul t q else S754_zero false
                   | None => S754_zero false
                   end)).
Proof.
  assert (Hfind : next_or_None (fun item => id item =? product_id order) inv
                  = Some P).
  { apply next_or_None_first. exists before, after. repeat split.
    - exact Hinv.
    - now apply Z.eqb_eq.
    - eapply Forall_impl; [|exact Hbefore]. intros item. apply Z.eqb_neq. }
  rewrite (purchase_item_found _ _ _ Hfind).
  rewrite (total_price_of_returns P order _
             (PyLong_AsDouble_in_range _ Hq)).
  eexists. repeat split.
Qed.

Lemma purchase_item_total_price_witness :
  exists conf,
    purchase_item {| product_id := 1; buyer_name := "Alice"; quantity := 2 |}
      store_inventory = (Return conf, store_inventory) /\
    name (OrderConfirmation.product conf) = "Surface Laptop" /\
    OrderConfirmation.total_price conf = Float (literal 219996 100).
Proof.
  destruct (purchase_item_total_price
              store_inventory [] (tl store_inventory)
              {| id := 1;
                 name := "Surface Laptop";
                 description := Some "A sleek Microsoft laptop with an elegant design and robust performance.";
                 price := literal 99999 100;
                 tax := Some (literal 9999 100) |}
              {| product_id := 1; buyer_name := "Alice"; quantity := 2 |}
              eq_refl (Forall_nil _) eq_refl eq_refl)
    as (conf & Hrun & Hprod & Htotal).
  exists conf. split; [exact Hrun|]. split.
  - rewrite Hprod. reflexivity.
  - rewrite Htotal. vm_compute. reflexivity.
Defined.

(** C1 as it was stated fails on the seeded inventory: for seven pizzas
    [purchase_item] charges 83.86000000000001, while
    [(price + tax) * quantity] is 83.86; [==] tells them apart. *)
Lemma purchase_item_total_price_counterexample :
  let order := {| product_id := 3; buyer_name := "Bob"; quantity := 7 |} in
  exists P conf,
    In P store_inventory /\ id P = product_id order /\
    purchase_item order store_inventory = (Return conf, store_inventory) /\
    OrderConfirmation.total_price conf
      = Float (S754_finite false 5901122886738904 (-46)) /\
    total_price_as_specified P (quantity order)
      = Return (Float (S754_finite false 5901122886738903 (-46))) /\
    feq (S754_finite false 5901122886738904 (-46))
        (S754_finite false 5901122886738903 (-46)) = false.
Proof.
  intros order.
  exists {| id := 3; name := "Pizza";
            description := Some "A tasteful argentinian style pizza.";
            price := literal 999 100; tax := Some (literal 199 100) |}.
  eexists. split; [simpl; tauto|]. split; [reflexivity|].
  split; [vm_compute; reflexivity|].
  repeat split; vm_compute; reflexivity.
Qed.

(** Among several products with the same id the first one is sold. *)
Example purchase_item_duplicate_ids :
  let cheap := {| id := 1; name := "a"; description := None;
                  price := float_of_Z 1; tax := None |} in
  let dear := {| id := 1; name := "b"; description := None;
                 price := float_of_Z 2; tax := None |} in
  exists conf,
    purchase_item {| product_id := 1; buyer_name := "x"; quantity := 1 |}
      [cheap; dear] = (Return conf, [cheap; dear]) /\
    OrderConfirmation.product conf = cheap /\
    OrderConfirmation.total_price conf = Float (float_of_Z 1).
Proof. eexists. repeat split; vm_compute; reflexivity. Qed.

(** ** C3 *)

Lemma valid_zero (s : bool) : valid (S754_zero s) = true.
Proof. reflexivity. Qed.

(** C3, as the code has it: for quantity 1, on a product whose price and
    tax are well-formed floats, [(price * quantity) + ((tax or 0) * quantity)]
    and [(price + (tax or 0)) * quantity] are the same value, the float
    [price + (tax or 0)] rounded once. *)
Theorem total_formulas_agree_at_one
    (P : StoreItem) (order : PurchaseOrder)
    (Hone : quantity order = 1)
    (Hprice : valid (price P) = true)
    (Htax : forall t, tax P = Some t -> valid t = true) :
  total_price_of P order = total_price_as_specified P (quantity order) /\
  total_price_of P order =
    Return (Float (fadd (price P)
                        (match or_0 (tax P) with
                         | Float t => t
                         | Int _ => S754_zero false
                         end))).
Proof.
  assert (Hq : PyLong_AsDouble (quantity order) = Return (float_of_Z 1))
    by (rewrite Hone; reflexivity).
  rewrite (total_price_of_returns P order _ Hq).
  unfold total_price_as_specified. rewrite Hone.
  rewrite (fmul_one _ Hprice).
  assert (Hmul : forall x, mul (Float x) (Int 1)
                           = Return (Float (fmul x (float_of_Z 1))))
    by reflexivity.
  unfold or_0.
  destruct (tax P) as [t|] eqn:Ht.
  - pose proof (Htax t eq_refl) as Hvt.
    destruct (truthy t).
    + change (add (Float (price P)) (Float t))
        with (Return (Float (fadd (price P) t))).
      cbn [bind]. rewrite Hmul, (fmul_one _ Hvt).
      rewrite (fmul_one _ (fadd_valid _ _ Hprice Hvt)). split; reflexivity.
    + change (add (Float (price P)) (Int 0))
        with (Return (Float (fadd (price P) (S754_zero false)))).
      cbn [bind]. rewrite Hmul.
      rewrite (fmul_one _ (fadd_valid _ _ Hprice (valid_zero false))).
      split; reflexivity.
  - change (add (Float (price P)) (Int 0))
      with (Return (Float (fadd (price P) (S754_zero false)))).
    cbn [bind]. rewrite Hmul.
    rewrite (fmul_one _ (fadd_valid _ _ Hprice (valid_zero false))).
    split; reflexivity.
Qed.

Lemma total_formulas_agree_at_one_witness :
  let pizza := {| id := 3; name := "Pizza";
                  description := Some "A tasteful argentinian style pizza.";
                  price := literal 999 100; tax := Some (literal 199 100) |} in
  let order := PurchaseOrder_init 3 "Bob" None in
  total_price_of pizza order = total_price_as_specified pizza 1 /\
  total_price_of pizza order = Return (Float (literal 1198 100)).
Proof.
  intros pizza order.
  assert (Htax : forall t, tax pizza = Some t -> valid t = true)
    by (intros t [= <-]; reflexivity).
  destruct (total_formulas_agree_at_one pizza order eq_refl eq_refl Htax)
    as [Hagree Hvalue].
  split; [exact Hagree|].
  rewrite Hvalue. vm_compute. reflexivity.
Defined.

(** C3 as it was stated fails for seven pizzas: the formula of the code
    gives 83.86000000000001 and the other one 83.86, two floats that are
    neither identical nor [==]. *)
Lemma total_formulas_differ :
  let pizza := {| id := 3; name := "Pizza";
                  description := Some "A tasteful argentinian style pizza.";
                  price := literal 999 100; tax := Some (literal 199 100) |} in
  let order := {| product_id := 3; buyer_name := "Bob"; quantity := 7 |} in
  exists by_code as_specified,
    total_price_of pizza order = Return (Float by_code) /\
    total_price_as_specified pizza (quantity order)
      = Return (Float as_specified) /\
    by_code = S754_finite false 5901122886738904 (-46) /\
    as_specified = S754_finite false 5901122886738903 (-46) /\
    by_code <> as_specified /\
    feq by_code as_specified = false.
Proof.
  intros pizza order. do 2 eexists.
  split; [vm_compute; reflexivity|].
  split; [vm_compute; reflexivity|].
  repeat split; try discriminate.
Qed.

(** ** C6 *)

(** C6, as the code has it: on an inventory holding a product with the
    order's [product_id], [purchase_item] makes no check on the quantity;
    it returns exactly when the quantity has a float, that is when its
    magnitude is below 2^1024 - 2^970, zero and the negatives included.
    From there on the multiplication of line 167 raises [OverflowError]. *)
Theorem purchase_item_quantity_unchecked
    (inv : list StoreItem) (order : PurchaseOrder)
    (Hin : exists item, In item inv /\ id item = product_id order) :
  ((exists conf, purchase_item order inv = (Return conf, inv)) <->
   Z.abs (quantity order) < 2 ^ 1024 - 2 ^ 970) /\
  (2 ^ 1024 - 2 ^ 970 <= Z.abs (quantity order) ->
   purchase_item order inv =
     (Raise (OverflowError "int too large to convert to float"), inv)).
Proof.
  destruct (next_or_None_present
              (fun item => id item =? product_id order) inv)
    as [product Hfind].
  { destruct Hin as (item & Hitem & Hid). exists item.
    split; [exact Hitem|]. now apply Z.eqb_eq. }
  rewrite (purchase_item_found _ _ _ Hfind).
  rewrite <- float_of_Z_finite_iff.
  assert (Hraises : isfinite (float_of_Z (quantity order)) = false ->
            total_price_of product order
            = Raise (OverflowError "int too large to convert to float")).
  { intros Hinf. apply total_price_of_raises.
    now apply PyLong_AsDouble_raises. }
  split; [split|].
  - intros [conf Hconf].
    destruct (isfinite (float_of_Z (quantity order))) eqn:Hfin;
      [reflexivity|].
    rewrite (Hraises eq_refl) in Hconf. discriminate.
  - intros Hfin. apply PyLong_AsDouble_returns in Hfin.
    destruct Hfin as [q Hq].
    rewrite (total_price_of_returns product order q Hq).
    eexists. reflexivity.
  - intros Hbig.
    destruct (isfinite (float_of_Z (quantity order))) eqn:Hfin.
    + apply float_of_Z_finite_iff in Hfin. lia.
    + now rewrite (Hraises eq_refl).
Qed.

Lemma purchase_item_quantity_unchecked_witness :
  let order := {| product_id := 3; buyer_name := "Bob"; quantity := -2 |} in
  (exists item, In item store_inventory /\ id item = product_id order) /\
  exists conf, purchase_item order store_inventory
               = (Return conf, store_inventory).
Proof.
  intros order.
  assert (Hin : exists item,
             In item store_inventory /\ id item = product_id order).
  { exists {| id := 3; name := "Pizza";
              description := Some "A tasteful argentinian style pizza.";
              price := literal 999 100; tax := Some (literal 199 100) |}.
    split; [simpl; tauto|reflexivity]. }
  split; [exact Hin|].
  apply (proj1 (purchase_item_quantity_unchecked store_inventory order Hin)).
  reflexivity.
Defined.

(** C6 as it was stated fails on the seeded inventory: the quantity 2^1024
    is no float, and the purchase of product 1 raises [OverflowError]. *)
Lemma purchase_item_quantity_overflow :
  let order :=
    {| product_id := 1; buyer_name := "Alice"; quantity := 2 ^ 1024 |} in
  (exists item, In item store_inventory /\ id item = product_id order) /\
  purchase_item order store_inventory =
    (Raise (OverflowError "int too large to convert to float"),
     store_inventory).
Proof.
  intros order. split.
  - exists {| id := 1;
              name := "Surface Laptop";
              description := Some "A sleek Microsoft laptop with an elegant design and robust performance.";
              price := literal 99999 100;
              tax := Some (literal 9999 100) |}.
    split; [simpl; tauto|reflexivity].
  - vm_compute. reflexivity.
Qed.

(* ================================================================== *)
(** * Further properties of the store                                  *)
(* ================================================================== *)

(** ** Which product a purchase finds *)

Lemma NoDup_map_inj {A B} (f : A -> B) (l : list A) (x y : A) :
  NoDup (map f l) -> In x l -> In y l -> f x = f y -> x = y.
Proof.
  induction l as [|a l IH]; simpl; intros Hnd Hx Hy Hf; [contradiction|].
  inversion Hnd as [|? ? Hnotin Hnd']; subst.
  destruct Hx as [->|Hx], Hy as [->|Hy]; auto.
  - exfalso. apply Hnotin. rewrite Hf. now apply in_map.
  - exfalso. apply Hnotin. rewrite <- Hf. now apply in_map.
Qed.

Lemma next_or_None_app {A} (p : A -> bool) (l1 l2 : list A) :
  next_or_None p (l1 ++ l2)%list =
    match next_or_None p l1 with
    | Some x => Some x
    | None => next_or_None p l2
    end.
Proof.
  unfold next_or_None. induction l1 as [|a l1 IH]; simpl; [reflexivity|].
  now destruct (p a).
Qed.

(** The outcome of a purchase is a function of what line 162 finds. *)
Lemma purchase_item_outcome_by_lookup order inv inv' :
  next_or_None (fun item => id item =? product_id order) inv
  = next_or_None (fun item => id item =? product_id order) inv' ->
  fst (purchase_item order inv) = fst (purchase_item order inv').
Proof.
  intros Hsame.
  destruct (next_or_None (fun item => id item =? product_id order) inv')
    as [product|] eqn:Hfind'.
  - rewrite (purchase_item_found _ _ _ Hsame),
            (purchase_item_found _ _ _ Hfind').
    now destruct (total_price_of product order).
  - now rewrite (purchase_item_missing _ _ Hsame),
                (purchase_item_missing _ _ Hfind').
Qed.

(** X1: in an inventory whose ids are pairwise different, the product
    carrying the order's [product_id] is the one sold wherever it stands:
    the purchase returns or raises what it would on the inventory holding
    that product alone. *)
Theorem purchase_item_unique_ids
    (inv : list StoreItem) (P : StoreItem) (order : PurchaseOrder)
    (Hunique : NoDup (map id inv))
    (Hin : In P inv)
    (HP : id P = product_id order) :
  fst (purchase_item order inv) = fst (purchase_item order [P]).
Proof.
  apply purchase_item_outcome_by_lookup.
  destruct (next_or_None_present
              (fun item => id item =? product_id order) inv)
    as [found Hfound].
  { exists P. split; [exact Hin|]. now apply Z.eqb_eq. }
  rewrite Hfound. unfold next_or_None in *. simpl.
  apply find_some in Hfound. destruct Hfound as [Hfin Hfid].
  apply Z.eqb_eq in Hfid.
  assert (found = P)
    by (apply (NoDup_map_inj id inv); congruence).
  subst found. apply Z.eqb_eq in HP. now rewrite HP.
Qed.

Lemma purchase_item_unique_ids_witness :
  let frico := {| id := 4; name := "Frico";
                  description := Some "Delicacy from Udine.";
                  price := literal 999 100; tax := Some (literal 199 100) |} in
  let order := {| product_id := 4; buyer_name := "Dan"; quantity := 3 |} in
  NoDup (map id store_inventory) /\ In frico store_inventory /\
  fst (purchase_item order store_inventory) = fst (purchase_item order [frico]).
Proof.
  intros frico order.
  assert (Hunique : NoDup (map id store_inventory)).
  { simpl. repeat constructor; simpl; intuition discriminate. }
  assert (Hin : In frico store_inventory) by (simpl; tauto).
  split; [exact Hunique|]. split; [exact Hin|].
  exact (purchase_item_unique_ids store_inventory frico order
           Hunique Hin eq_refl).
Defined.

(** X2: products put in front of the inventory under other ids, and
    products of any id put behind it, change nothing for an order whose
    product the inventory already holds. *)
Theorem purchase_item_inventory_extended
    (front inv back : list StoreItem) (order : PurchaseOrder)
    (Hfront : Forall (fun item => id item <> product_id order) front)
    (Hheld : exists item, In item inv /\ id item = product_id order) :
  fst (purchase_item order (front ++ inv ++ back)%list)
  = fst (purchase_item order inv).
Proof.
  apply purchase_item_outcome_by_lookup.
  rewrite !next_or_None_app.
  rewrite (next_or_None_absent _ front).
  - destruct (next_or_None_present
                (fun item => id item =? product_id order) inv)
      as [found Hfound].
    { destruct Hheld as (item & Hitem & Hid). exists item.
      split; [exact Hitem|]. now apply Z.eqb_eq. }
    now rewrite Hfound.
  - intros item Hitem. apply Z.eqb_neq.
    rewrite Forall_forall in Hfront. now apply Hfront.
Qed.

Lemma purchase_item_inventory_extended_witness :
  let tea := {| id := 7; name := "Tea"; description := None;
                price := literal 250 100; tax := None |} in
  let pizza2 := {| id := 3; name := "Other pizza"; description := None;
                   price := literal 100 1; tax := None |} in
  let order := {| product_id := 3; buyer_name := "Bob"; quantity := 2 |} in
  fst (purchase_item order ([tea] ++ store_inventory ++ [pizza2])%list)
  = fst (purchase_item order store_inventory).
Proof.
  intros tea pizza2 order.
  apply (purchase_item_inventory_extended [tea] store_inventory [pizza2] order).
  - repeat constructor. discriminate.
  - exists {| id := 3; name := "Pizza";
              description := Some "A tasteful argentinian style pizza.";
              price := literal 999 100; tax := Some (literal 199 100) |}.
    split; [simpl; tauto|reflexivity].
Defined.

(** ** What the 404 detail tells *)

Lemma to_int_not_nil (z : Z) :
  Z.to_int z <> Decimal.Pos Decimal.Nil /\
  Z.to_int z <> Decimal.Neg Decimal.Nil.
Proof.
  split; intros Hnil;
    pose proof (DecimalZ.of_to z) as Hz; rewrite Hnil in Hz;
    simpl in Hz; subst z; discriminate.
Qed.

(** The decimal digits of an int can be read back. *)
Lemma decimal_inj (a b : Z) : decimal a = decimal b -> a = b.
Proof.
  unfold decimal. intros Heq.
  destruct (to_int_not_nil a) as [Ha1 Ha2].
  destruct (to_int_not_nil b) as [Hb1 Hb2].
  pose proof (NilZero.isi (Z.to_int a) Ha1 Ha2) as Hpa.
  pose proof (NilZero.isi (Z.to_int b) Hb1 Hb2) as Hpb.
  rewrite Heq in Hpa. rewrite Hpa in Hpb. injection Hpb as Hint.
  rewrite <- (DecimalZ.of_to a), <- (DecimalZ.of_to b). now rewrite Hint.
Qed.

Lemma str_returns (z : Z) (rendered : string) :
  str z = Return rendered -> rendered = decimal z.
Proof.
  unfold str. destruct (10 ^ int_max_str_digits <=? Z.abs z);
    [discriminate|]. now intros [= <-].
Qed.

Lemma length_append (s t : string) :
  String.length (s ++ t) = (String.length s + String.length t)%nat.
Proof. induction s as [|c s IH]; simpl; [reflexivity|now rewrite IH]. Qed.

Lemma append_inj_l (p s t : string) : p ++ s = p ++ t -> s = t.
Proof.
  induction p as [|c p IH]; simpl; [auto|].
  intros [= H]. now apply IH.
Qed.

Lemma append_inj_r (s t p : string) : s ++ p = t ++ p -> s = t.
Proof.
  revert t. induction s as [|c s IH]; intros [|d t] H; simpl in H.
  - reflexivity.
  - apply (f_equal String.length) in H. simpl in H.
    rewrite length_append in H. lia.
  - apply (f_equal String.length) in H. simpl in H.
    rewrite length_append in H. lia.
  - injection H as -> H. f_equal. now apply IH.
Qed.

(** The only [HTTPException] of [purchase_item] is the 404 of line 164. *)
Lemma purchase_item_http_error order inv inv' status detail :
  purchase_item order inv = (Raise (HTTPException status detail), inv') ->
  status = 404 /\
  detail
    = "Product with ID " ++ decimal (product_id order) ++ " not found." /\
  next_or_None (fun item => id item =? product_id order) inv = None.
Proof.
  destruct (next_or_None (fun item => id item =? product_id order) inv)
    as [product|] eqn:Hfind.
  - rewrite (purchase_item_found _ _ _ Hfind).
    destruct (isfinite (float_of_Z (quantity order))) eqn:Hfin.
    + apply PyLong_AsDouble_returns in Hfin. destruct Hfin as [q Hq].
      rewrite (total_price_of_returns product order q Hq). discriminate.
    + rewrite (total_price_of_raises product order _
                 (PyLong_AsDouble_raises _ Hfin)).
      discriminate.
  - rewrite (purchase_item_missing _ _ Hfind).
    destruct (str (product_id order)) as [rendered|e] eqn:Hstr.
    + apply str_returns in Hstr. subst rendered.
      intros [= <- <- _]. repeat split.
    + unfold str in Hstr.
      destruct (10 ^ int_max_str_digits <=? Z.abs (product_id order));
        [|discriminate].
      injection Hstr as <-. discriminate.
Qed.

(** X3: the detail of a 404 names its product id and no other: two
    purchases, on whatever inventories, that fail with the same detail
    asked for the same [product_id], and neither inventory holds it. *)
Theorem not_found_detail_identifies_id
    (inv1 inv1' inv2 inv2' : list StoreItem) (order1 order2 : PurchaseOrder)
    (status1 status2 : Z) (detail : string)
    (H1 : purchase_item order1 inv1
          = (Raise (HTTPException status1 detail), inv1'))
    (H2 : purchase_item order2 inv2
          = (Raise (HTTPException status2 detail), inv2')) :
  product_id order1 = product_id order2 /\
  (forall item, In item inv1 -> id item <> product_id order1) /\
  (forall item, In item inv2 -> id item <> product_id order2).
Proof.
  apply purchase_item_http_error in H1, H2.
  destruct H1 as (_ & Hd1 & Hnone1), H2 as (_ & Hd2 & Hnone2).
  split; [|split].
  - rewrite Hd1 in Hd2.
    apply append_inj_l, append_inj_r in Hd2. now apply decimal_inj.
  - intros item Hitem. apply Z.eqb_neq.
    exact (find_none _ _ Hnone1 item Hitem).
  - intros item Hitem. apply Z.eqb_neq.
    exact (find_none _ _ Hnone2 item Hitem).
Qed.

Lemma not_found_detail_identifies_id_witness :
  let carl := {| product_id := 99; buyer_name := "Carl"; quantity := 1 |} in
  let dora := {| product_id := 99; buyer_name := "Dora"; quantity := 5 |} in
  purchase_item carl store_inventory
    = (Raise (HTTPException 404 "Product with ID 99 not found."),
       store_inventory) /\
  purchase_item dora []
    = (Raise (HTTPException 404 "Product with ID 99 not found."), []) /\
  product_id carl = product_id dora.
Proof.
  intros carl dora.
  assert (Hdigits : Z.abs 99 < 10 ^ 4300)
    by (apply two_digits_in_range; reflexivity).
  assert (H1 : purchase_item carl store_inventory
               = (Raise (HTTPException 404 "Product with ID 99 not found."),
                  store_inventory)).
  { rewrite purchase_item_missing by reflexivity.
    change (product_id carl) with 99.
    now rewrite (str_in_range _ Hdigits). }
  assert (H2 : purchase_item dora []
               = (Raise (HTTPException 404 "Product with ID 99 not found."),
                  [])).
  { rewrite purchase_item_missing by reflexivity.
    change (product_id dora) with 99.
    now rewrite (str_in_range _ Hdigits). }
  split; [exact H1|]. split; [exact H2|].
  exact (proj1 (not_found_detail_identifies_id _ _ _ _ _ _ _ _ _ H1 H2)).
Defined.

(** ** Quantities that are zero or negative *)

(** Everything a returned confirmation says about the run. *)
Lemma purchase_item_returns_inv order inv conf inv' :
  purchase_item order inv = (Return conf, inv') ->
  inv' = inv /\
  next_or_None (fun item => id item =? product_id order) inv
    = Some (OrderConfirmation.product conf) /\
  Z.abs (quantity order) < 2 ^ 1024 - 2 ^ 970 /\
  OrderConfirmation.total_price conf =
    let q := float_of_Z (quantity order) in
    Float (fadd (fmul (price (OrderConfirmation.product conf)) q)
                (match tax (OrderConfirmation.product conf) with
                 | Some t => if truthy t then fmul t q else S754_zero false
                 | None => S754_zero false
                 end)).
Proof.
  destruct (next_or_None (fun item => id item =? product_id order) inv)
    as [product|] eqn:Hfind.
  - rewrite (purchase_item_found _ _ _ Hfind).
    destruct (isfinite (float_of_Z (quantity order))) eqn:Hfin.
    + pose proof (proj1 (float_of_Z_finite_iff _) Hfin) as Hrange.
      rewrite (total_price_of_returns product order _
                 (PyLong_AsDouble_in_range _ Hrange)).
      intros [= <- <-]. simpl. repeat split. exact Hrange.
    + rewrite (total_price_of_raises product order _
                 (PyLong_AsDouble_raises _ Hfin)).
      discriminate.
  - rewrite (purchase_item_missing _ _ Hfind).
    destruct (str (product_id order)); discriminate.
Qed.

(** X4: an order for zero units of a product whose price and tax are
    finite is confirmed with a total that is a zero. *)
Theorem purchase_item_zero_quantity
    (inv inv' : list StoreItem) (order : PurchaseOrder)
    (conf : OrderConfirmation.t)
    (Hzero : quantity order = 0)
    (Hok : purchase_item order inv = (Return conf, inv'))
    (Hprice : isfinite (price (OrderConfirmation.product conf)) = true)
    (Htax : forall t, tax (OrderConfirmation.product conf) = Some t ->
                      isfinite t = true) :
  exists s, OrderConfirmation.total_price conf = Float (S754_zero s).
Proof.
  apply purchase_item_returns_inv in Hok.
  destruct Hok as (_ & _ & _ & ->). rewrite Hzero. cbv zeta.
  change (float_of_Z 0) with (S754_zero false).
  destruct (price (OrderConfirmation.product conf)) as [sp|sp| |sp mp ep];
    try discriminate;
    (destruct (tax (OrderConfirmation.product conf)) as [t|];
     [ specialize (Htax t eq_refl);
       destruct t as [st|st| |st mt et]; try discriminate
     | ]);
    simpl; try destruct sp; try destruct st; simpl; eexists; reflexivity.
Qed.

Lemma purchase_item_zero_quantity_witness :
  exists conf,
    purchase_item {| product_id := 2; buyer_name := "Eve"; quantity := 0 |}
      store_inventory = (Return conf, store_inventory) /\
    OrderConfirmation.total_price conf = Float (S754_zero false).
Proof.
  eexists. split; [vm_compute; reflexivity|].
  match goal with
  | |- OrderConfirmation.total_price ?c = _ =>
      destruct (purchase_item_zero_quantity store_inventory store_inventory
                  {| product_id := 2; buyer_name := "Eve"; quantity := 0 |}
                  c eq_refl eq_refl eq_refl) as [s Hs]
  end.
  - intros t [= <-]. reflexivity.
  - reflexivity.
Defined.

(** Rounding commutes with the sign. *)
Lemma binary_round_aux_neg (s : bool) (m e : Z) (l : location) :
  binary_round_aux prec emax (negb s) m e l
  = fneg (binary_round_aux prec emax s m e l).
Proof.
  unfold binary_round_aux.
  destruct (shr_fexp prec emax m e l) as [mrs' e'].
  destruct (shr_fexp prec emax _ e' loc_Exact) as [mrs'' e''].
  destruct (shr_m mrs''); try reflexivity.
  destruct (e'' <=? emax - prec); reflexivity.
Qed.

Lemma binary_round_neg (s : bool) (m : positive) (e : Z) :
  binary_round prec emax (negb s) m e = fneg (binary_round prec emax s m e).
Proof.
  unfold binary_round. destruct (shl_align m e _).
  apply binary_round_aux_neg.
Qed.

Lemma binary_normalize_neg (z e : Z) :
  z <> 0 ->
  binary_normalize prec emax (- z) e false
  = fneg (binary_normalize prec emax z e false).
Proof.
  destruct z as [|m|m]; intros Hz; [contradiction| |]; simpl.
  - apply (binary_round_neg false).
  - apply (binary_round_neg true).
Qed.

Lemma fmul_fneg_r (x y : float) : fmul x (fneg y) = fneg (fmul x y).
Proof.
  destruct x as [sx|sx| |sx mx ex], y as [sy|sy| |sy my ey];
    try reflexivity; simpl; try (now rewrite negb_xorb_r).
  rewrite <- negb_xorb_r. apply binary_round_aux_neg.
Qed.

Lemma cond_Zopp_negb (s : bool) (z : Z) :
  cond_Zopp (negb s) z = - cond_Zopp s z.
Proof. destruct s; simpl; lia. Qed.

Lemma fadd_fneg (x y : float) : mirror (fadd x y) (fadd (fneg x) (fneg y)).
Proof.
  destruct x as [sx|sx| |sx mx ex], y as [sy|sy| |sy my ey];
    try (left; reflexivity);
    try (destruct sx, sy; (left; reflexivity) || (right; eexists _, _; split; reflexivity)).
  unfold fadd, fneg, SFadd, SFopp. rewrite !cond_Zopp_negb.
  set (ez := Z.min ex ey).
  set (sum := cond_Zopp sx (Z.pos (fst (shl_align mx ex ez)))
              + cond_Zopp sy (Z.pos (fst (shl_align my ey ez)))).
  replace (- cond_Zopp sx (Z.pos (fst (shl_align mx ex ez)))
           + - cond_Zopp sy (Z.pos (fst (shl_align my ey ez))))
    with (- sum) by (unfold sum; lia).
  destruct (Z.eq_dec sum 0) as [-> | Hnz].
  - right. exists false, false. split; reflexivity.
  - left. now apply binary_normalize_neg.
Qed.

Lemma mirror_zero (s s' : bool) : mirror (S754_zero s) (S754_zero s').
Proof. right. now exists s, s'. Qed.

(** Sums of mirrored terms are mirrored. *)
Lemma fadd_mirror (a a' b b' : float) :
  mirror a a' -> mirror b b' -> mirror (fadd a b) (fadd a' b').
Proof.
  intros [-> | (sa & sa' & -> & ->)] [-> | (sb & sb' & -> & ->)].
  - apply fadd_fneg.
  - destruct a as [s|s| |s m e]; simpl;
      try (left; reflexivity).
    destruct s, sb, sb'; apply mirror_zero.
  - destruct b as [s|s| |s m e]; simpl;
      try (left; reflexivity).
    destruct s, sa, sa'; apply mirror_zero.
  - destruct sa, sa', sb, sb'; apply mirror_zero.
Qed.

(** A product by the quantity and by its opposite. *)
Lemma fmul_mirror (x : float) (z : Z) :
  mirror (fmul x (float_of_Z z)) (fmul x (float_of_Z (- z))).
Proof.
  destruct (Z.eq_dec z 0) as [-> | Hnz].
  - change (float_of_Z (- 0)) with (S754_zero false).
    change (float_of_Z 0) with (S754_zero false).
    destruct x as [s|s| |s m e]; simpl;
      try (left; reflexivity); apply mirror_zero.
  - left. unfold float_of_Z.
    rewrite (binary_normalize_neg z 0 Hnz). apply fmul_fneg_r.
Qed.

Lemma feq_refl (x : float) : x <> S754_nan -> feq x x = true.
Proof.
  destruct x as [s|s| |s m e]; intros Hx; try reflexivity;
    [now destruct s|contradiction|].
  unfold feq, SFeqb, SFcompare.
  rewrite Z.compare_refl, Pos.compare_cont_refl. now destruct s.
Qed.

(** On numbers, mirrored floats are [==] up to the sign. *)
Lemma mirror_feq (x y : float) :
  mirror x y -> x <> S754_nan -> feq y (fneg x) = true.
Proof.
  intros [-> | (s & s' & -> & ->)] Hx.
  - apply feq_refl. now destruct x.
  - reflexivity.
Qed.

(** X5: an order and the order for the opposite quantity mirror each
    other: when one is confirmed so is the other, for the same product,
    and its total is the opposite of the first total, or both totals are
    zeros; on totals that are numbers, [total' == -total]. *)
Theorem purchase_item_opposite_quantity
    (inv inv' : list StoreItem) (order order' : PurchaseOrder)
    (conf : OrderConfirmation.t) (total : float)
    (Hid : product_id order' = product_id order)
    (Hopp : quantity order' = - quantity order)
    (Hok : purchase_item order inv = (Return conf, inv'))
    (Htotal : OrderConfirmation.total_price conf = Float total) :
  exists conf' total',
    purchase_item order' inv = (Return conf', inv) /\
    OrderConfirmation.product conf' = OrderConfirmation.product conf /\
    OrderConfirmation.total_price conf' = Float total' /\
    mirror total total' /\
    (total <> S754_nan -> feq total' (fneg total) = true).
Proof.
  apply purchase_item_returns_inv in Hok.
  destruct Hok as (_ & Hfind & Hrange & Hprice).
  rewrite Hprice in Htotal. cbv zeta in Htotal. injection Htotal as <-.
  assert (Hfind' : next_or_None
                     (fun item => id item =? product_id order') inv
                   = Some (OrderConfirmation.product conf))
    by now rewrite Hid.
  assert (Hrange' : Z.abs (quantity order') < 2 ^ 1024 - 2 ^ 970)
    by (rewrite Hopp, Z.abs_opp; exact Hrange).
  rewrite (purchase_item_found _ _ _ Hfind').
  rewrite (total_price_of_returns _ order' _
             (PyLong_AsDouble_in_range _ Hrange')).
  do 2 eexists. split; [reflexivity|]. split; [reflexivity|].
  split; [reflexivity|].
  assert (Hmirror :
    mirror
      (fadd (fmul (price (OrderConfirmation.product conf))
                  (float_of_Z (quantity order)))
            match tax (OrderConfirmation.product conf) with
            | Some t => if truthy t
                        then fmul t (float_of_Z (quantity order))
                        else S754_zero false
            | None => S754_zero false
            end)
      (fadd (fmul (price (OrderConfirmation.product conf))
                  (float_of_Z (quantity order')))
            match tax (OrderConfirmation.product conf) with
            | Some t => if truthy t
                        then fmul t (float_of_Z (quantity order'))
                        else S754_zero false
            | None => S754_zero false
            end)).
  { rewrite Hopp. apply fadd_mirror; [apply fmul_mirror|].
    destruct (tax (OrderConfirmation.product conf)) as [t|];
      [destruct (truthy t)|]; try apply mirror_zero. apply fmul_mirror. }
  split; [exact Hmirror|]. now apply mirror_feq.
Qed.

Lemma purchase_item_opposite_quantity_witness :
  let order := {| product_id := 3; buyer_name := "Bob"; quantity := 7 |} in
  let refund := {| product_id := 3; buyer_name := "Bob"; quantity := -7 |} in
  exists conf conf',
    purchase_item order store_inventory = (Return conf, store_inventory) /\
    purchase_item refund store_inventory = (Return conf', store_inventory) /\
    OrderConfirmation.total_price conf
      = Float (S754_finite false 5901122886738904 (-46)) /\
    OrderConfirmation.total_price conf'
      = Float (S754_finite true 5901122886738904 (-46)).
Proof.
  intros order refund.
  eexists. 
  assert (Hok : purchase_item order store_inventory
                = (Return
                     {| OrderConfirmation.message
                          := "Thank you Bob for your purchase!";
                        OrderConfirmation.product :=
                          {| id := 3; name := "Pizza";
                             description :=
                               Some "A tasteful argentinian style pizza.";
                             price := literal 999 100;
                             tax := Some (literal 199 100) |};
                        OrderConfirmation.quantity := 7;
                        OrderConfirmation.total_price :=
                          Float (S754_finite false 5901122886738904 (-46)) |},
                   store_inventory))
    by (vm_compute; reflexivity).
  destruct (purchase_item_opposite_quantity
              store_inventory store_inventory order refund _ _
              eq_refl eq_refl Hok eq_refl)
    as (conf' & total' & Hrun' & _ & Htotal' & [Hm | Hz] & _).
  - exists conf'. split; [exact Hok|]. split; [exact Hrun'|].
    split; [reflexivity|]. rewrite Htotal', Hm. reflexivity.
  - destruct Hz as (s & s' & Hs & _). discriminate.
Defined.

(* ================================================================== *)
(** * The schema cache                                                 *)
(* ================================================================== *)

Section Schema.
Import OpenAPI.

Lemma get_setitem_same (d : dict) (k : string) (v : value) :
  get (setitem d k v) k = Some v.
Proof.
  induction d as [|[k' v'] d IH]; simpl.
  - now rewrite String.eqb_refl.
  - destruct (String.eqb k' k) eqn:Hk; simpl; now rewrite Hk.
Qed.

Lemma get_setitem_other (d : dict) (k k0 : string) (v : value) :
  k0 <> k -> get (setitem d k v) k0 = get d k0.
Proof.
  intros Hne. induction d as [|[k' v'] d IH]; simpl.
  - apply String.eqb_neq in Hne. rewrite String.eqb_sym. now rewrite Hne.
  - destruct (String.eqb k' k) eqn:Hk; simpl.
    + apply String.eqb_eq in Hk. subst k'.
      assert (Hk0 : String.eqb k k0 = false)
        by (apply String.eqb_neq; congruence).
      now rewrite Hk0.
    + destruct (String.eqb k' k0); [reflexivity|exact IH].
Qed.

(** Assigning a key never drops or reorders the keys already there. *)
Lemma keys_setitem (d : dict) (k : string) (v : value) :
  map fst (setitem d k v) =
    if existsb (String.eqb k) (map fst d) then map fst d
    else (map fst d ++ [k])%list.
Proof.
  induction d as [|[k' v'] d IH]; simpl; [reflexivity|].
  rewrite (String.eqb_sym k k').
  destruct (String.eqb k' k) eqn:Hk; simpl; [reflexivity|].
  rewrite IH. now destruct (existsb (String.eqb k) (map fst d)).
Qed.

Lemma truthy_setitem (d : dict) (k : string) (v : value) :
  truthy (Some (setitem d k v)) = true.
Proof.
  destruct d as [|[k' v'] d]; simpl; [reflexivity|].
  now destruct (String.eqb k' k).
Qed.

Context {Routes : Type}.

(** X6: with nothing cached (no schema yet, or an empty one), a successful
    generation is stored in the application and returned with its
    "servers" entry set to the local development server, whatever the
    generator had put there; every other key reads as generated, and the
    keys keep their order, "servers" going last when it is new. *)
Theorem custom_openapi_generates
    (get_openapi : string -> string -> string -> Routes -> outcome dict)
    (app : FastAPI Routes) (generated : dict)
    (Hcold : truthy (openapi_schema app) = false)
    (Hgen : get_openapi (title app) (version app) (description app)
                        (routes app) = Return generated) :
  exists schema,
    custom_openapi get_openapi app
      = (Return (Some schema), set_openapi_schema app (Some schema)) /\
    get schema "servers" = Some servers /\
    (forall k, k <> "servers" -> get schema k = get generated k) /\
    map fst schema =
      (if existsb (String.eqb "servers") (map fst generated)
       then map fst generated
       else (map fst generated ++ ["servers"])%list).
Proof.
  exists (setitem generated "servers" servers).
  unfold custom_openapi. rewrite Hcold, Hgen. cbv zeta.
  split; [reflexivity|]. split; [apply get_setitem_same|].
  split; [intros k Hk; now apply get_setitem_other|apply keys_setitem].
Qed.

(** X7: a schema that [custom_openapi] has returned is what every later
    call returns, without touching the application, even if by then the
    title, the version, the description, the routes or the generator
    have changed; and it is never [None] nor empty. *)
Theorem custom_openapi_cached
    (get_openapi get_openapi' :
       string -> string -> string -> Routes -> outcome dict)
    (app app1 app2 : FastAPI Routes) (schema : option dict)
    (Hfirst : custom_openapi get_openapi app = (Return schema, app1))
    (Hkept : openapi_schema app2 = openapi_schema app1) :
  custom_openapi get_openapi' app2 = (Return schema, app2) /\
  truthy schema = true.
Proof.
  assert (Hschema : openapi_schema app1 = schema /\ truthy schema = true).
  { unfold custom_openapi in Hfirst.
    destruct (truthy (openapi_schema app)) eqn:Hwarm.
    - injection Hfirst as <- <-. now split.
    - destruct (get_openapi _ _ _ _) as [generated|e]; [|discriminate].
      cbv zeta in Hfirst. injection Hfirst as <- <-. simpl.
      split; [reflexivity|apply truthy_setitem]. }
  destruct Hschema as [Hstored Htruthy]. split; [|exact Htruthy].
  unfold custom_openapi. rewrite Hkept, Hstored, Htruthy. reflexivity.
Qed.

End Schema.

Lemma custom_openapi_generates_witness :
  let app := {| OpenAPI.title := "Fake Store API";
                OpenAPI.version := "1.0.0";
                OpenAPI.description := "store";
                OpenAPI.routes := tt;
                OpenAPI.openapi_schema := None |} in
  let get_openapi := fun title version (_ : string) (_ : unit) =>
    Return [ ("openapi", OpenAPI.VStr "3.1.0");
             ("info", OpenAPI.VDict [ ("title", OpenAPI.VStr title);
                                      ("version", OpenAPI.VStr version) ]);
             ("paths", OpenAPI.VDict []) ] in
  exists schema,
    fst (OpenAPI.custom_openapi get_openapi app) = Return (Some schema) /\
    map fst schema = ["openapi"; "info"; "paths"; "servers"] /\
    OpenAPI.get schema "servers" = Some OpenAPI.servers.
Proof.
  intros app get_openapi.
  destruct (custom_openapi_generates get_openapi app _ eq_refl eq_refl)
    as (schema & Hrun & Hservers & _ & Hkeys).
  exists schema. split; [now rewrite Hrun|]. split; assumption.
Defined.

Lemma custom_openapi_cached_witness :
  let app := {| OpenAPI.title := "Demo API";
                OpenAPI.version := "1.0.0";
                OpenAPI.description := "demo";
                OpenAPI.routes := tt;
                OpenAPI.openapi_schema := None |} in
  let get_openapi := fun (_ _ _ : string) (_ : unit) =>
    Return [ ("openapi", OpenAPI.VStr "3.1.0") ] in
  let get_openapi' := fun (_ _ _ : string) (_ : unit) =>
    Return [ ("openapi", OpenAPI.VStr "3.0.2") ] in
  let schema := [ ("openapi", OpenAPI.VStr "3.1.0");
                  ("servers", OpenAPI.servers) ] in
  let app1 := OpenAPI.set_openapi_schema app (Some schema) in
  let app2 := {| OpenAPI.title := "Renamed";
                 OpenAPI.version := "2.0.0";
                 OpenAPI.description := "demo";
                 OpenAPI.routes := tt;
                 OpenAPI.openapi_schema := Some schema |} in
  OpenAPI.custom_openapi get_openapi app = (Return (Some schema), app1) /\
  OpenAPI.custom_openapi get_openapi' app2 = (Return (Some schema), app2).
Proof.
  intros app get_openapi get_openapi' schema app1 app2.
  assert (Hfirst : OpenAPI.custom_openapi get_openapi app
                   = (Return (Some schema), app1)) by reflexivity.
  split; [exact Hfirst|].
  exact (proj1 (custom_openapi_cached get_openapi get_openapi'
                  app app1 app2 (Some schema) Hfirst eq_refl)).
Defined.

(* ================================================================== *)
(** * The scripts                                                      *)
(* ================================================================== *)

Section ChatLoopFacts.
Import Agent.
Context {History Content Error : Type}.
Variable lower : string -> string.
Variable add_user_message : string -> History -> History.
Variable add_assistant_message : string -> History -> History.
Variable get_chat_message_content : History -> (Error + Content) * History.
Variable str_content : Content -> string.

Lemma answered_length lines chat answers chat' :
  answered add_user_message add_assistant_message
           get_chat_message_content str_content lines chat answers chat' ->
  List.length answers = List.length lines.
Proof. induction 1; simpl; congruence. Qed.



End ChatLoopFacts.

Section PluginScriptFacts.
Import Agent.
Context {Function : Type}.
Variable str_function : Function -> string.
Variable invoke : string -> list (string * OpenAPI.value) -> option string.

Lemma print_functions_events (functions : list Function) :
  print_functions str_function functions =
    (flat_map (fun function =>
                 [Printed ("Function: " ++ str_function function);
                  Printed "----------------------------------------"])
              functions,
     inr tt).
Proof.
  induction functions as [|function functions IH]; simpl; [reflexivity|].
  rewrite IH. reflexivity.
Qed.

(** X10: fake_openapi_plugin_sample.py prints, for each function of the
    plugin in turn, its "Function: ..." line and a rule of forty dashes,
    exactly what sk_openapi_plugin_function_reader.py prints, and then
    leaves by [sys.exit()]: it never invokes a function of the plugin. *)
Theorem sample_main_only_lists (functions : list Function) :
  sample_main str_function invoke functions
    = (fst (reader_main str_function functions), inl SystemExit) /\
  fst (reader_main str_function functions)
    = flat_map (fun function =>
                  [Printed ("Function: " ++ str_function function);
                   Printed "----------------------------------------"])
               functions /\
  (forall name arguments,
     ~ In (Invoked name arguments)
          (fst (sample_main str_function invoke functions))).
Proof.
  unfold sample_main, reader_main. rewrite print_functions_events.
  simpl. rewrite app_nil_r. repeat split.
  intros name arguments Hin. apply in_flat_map in Hin.
  destruct Hin as (function & _ & [H|[H|[]]]); discriminate.
Qed.

End PluginScriptFacts.


